(** * Azure AD integration: employee provisioning and department DL sync

    A shallow embedding of the two Odoo models of the add-on
    [azure_ad_integration]:

    - [models/hr_employee.py]: [HREmployee.create], [_create_azure_email],
      [_add_to_dept_dl];
    - [models/hr_department.py]: [HRDepartment.action_sync_dl_from_azure].

    Python strings are [string]s whose characters are the code points below
    256; Python ints are [Z] (status codes, timeouts) or [nat] (the suffix
    counter, which only grows from 1).  The remote directory is an oracle
    answering each request from the history of requests made so far; every
    request and every log record is appended to an explicit [world]. *)

From Stdlib Require Import List String Ascii Bool Arith ZArith Lia.
From Stdlib Require Import DecimalString DecimalNat.
From Stdlib Require Import FinFun.
Import ListNotations.

Local Open Scope list_scope.
Local Open Scope string_scope.

Set Warnings "-register-all".

(** ** Python string operations *)

Module PyStr.

(** [str.isspace] on one character: the code points 9..13, 28..32, 133
    and 160 are the white space below 256. *)
Definition is_space (c : ascii) : bool :=
  let n := nat_of_ascii c in
  (((9 <=? n) && (n <=? 13)) || ((28 <=? n) && (n <=? 32))
   || (n =? 133) || (n =? 160))%nat.

(** [str.lower] on one character: A..Z and the upper-case letters
    192..222 (but the multiplication sign 215) move up by 32. *)
Definition lower_char (c : ascii) : ascii :=
  let n := nat_of_ascii c in
  if (((65 <=? n) && (n <=? 90))
      || ((192 <=? n) && (n <=? 222) && negb (n =? 215)))%nat
  then ascii_of_nat (n + 32) else c.

Fixpoint lower (s : string) : string :=
  match s with
  | EmptyString => EmptyString
  | String c r => String (lower_char c) (lower r)
  end.

Fixpoint lstrip (s : string) : string :=
  match s with
  | EmptyString => EmptyString
  | String c r => if is_space c then lstrip r else s
  end.

Fixpoint rstrip (s : string) : string :=
  match s with
  | EmptyString => EmptyString
  | String c r =>
      match rstrip r with
      | EmptyString => if is_space c then EmptyString else String c EmptyString
      | r' => String c r'
      end
  end.

(** [s.strip()] *)
Definition strip (s : string) : string := rstrip (lstrip s).

(** [s.split()] with no separator: the maximal runs of characters that
    are not white space, in order.  [cur] is the run being read. *)
Fixpoint split_from (cur : string) (s : string) : list string :=
  match s with
  | EmptyString =>
      match cur with EmptyString => [] | _ => [cur] end
  | String c r =>
      if is_space c then
        match cur with
        | EmptyString => split_from EmptyString r
        | _ => cur :: split_from EmptyString r
        end
      else split_from (cur ++ String c EmptyString) r
  end.

Definition split (s : string) : list string := split_from EmptyString s.

(** [s.replace(c, by)] for a one-character pattern [c]. *)
Fixpoint replace (c : ascii) (by_ : string) (s : string) : string :=
  match s with
  | EmptyString => EmptyString
  | String d r =>
      if Ascii.eqb d c then by_ ++ replace c by_ r
      else String d (replace c by_ r)
  end.

(** [s.split(c)[0]]: the text before the first [c]. *)
Fixpoint before (c : ascii) (s : string) : string :=
  match s with
  | EmptyString => EmptyString
  | String d r => if Ascii.eqb d c then EmptyString else String d (before c r)
  end.

(** [f"{n}"] for a non-negative int. *)
Definition of_nat (n : nat) : string :=
  NilEmpty.string_of_uint (Nat.to_uint n).

End PyStr.

(** ** Python values, exceptions and the outside world *)

Module Py.

(** The values a decoded JSON body is made of ([float] left out). *)
Inductive value :=
| VNone
| VBool (b : bool)
| VInt (z : Z)
| VStr (s : string)
| VList (l : list value)
| VDict (items : list (string * value)).

(** The exceptions the modelled statements can raise; all of them derive
    from [Exception]. *)
Inductive exn :=
| AttributeError
| IndexError
| KeyError
| TypeError
| ValueError
| JSONDecodeError
| HTTPError (status : Z)
| RequestException
| OutOfFuel.

Inductive outcome (A : Type) :=
| Ret (a : A)
| Raise (e : exn).
Arguments Ret {A} a.
Arguments Raise {A} e.

(** [bool(v)] *)
Definition truthy (v : value) : bool :=
  match v with
  | VNone => false
  | VBool b => b
  | VInt z => negb (z =? 0)%Z
  | VStr s => negb (s =? EmptyString)
  | VList l => match l with [] => false | _ => true end
  | VDict items => match items with [] => false | _ => true end
  end.

(** Truth value of a [Char] field or of a system parameter: unset
    ([False]) and the empty string are false. *)
Definition truthy_char (f : option string) : bool :=
  match f with
  | Some s => negb (s =? EmptyString)
  | None => false
  end.

(** [f"{p}"] of a [Char] field or system parameter. *)
Definition fmt_char (f : option string) : string :=
  match f with
  | Some s => s
  | None => "False"
  end.

Fixpoint lookup (k : string) (items : list (string * value)) : option value :=
  match items with
  | [] => None
  | (k', v) :: rest => if k' =? k then Some v else lookup k rest
  end.

(** [d.get(k, default)]: only a dict has the method. *)
Definition get (d : value) (k : string) (default : value) : outcome value :=
  match d with
  | VDict items =>
      match lookup k items with
      | Some v => Ret v
      | None => Ret default
      end
  | _ => Raise AttributeError
  end.

(** [v[0]] *)
Definition item0 (v : value) : outcome value :=
  match v with
  | VList (x :: _) => Ret x
  | VList [] => Raise IndexError
  | VStr (String c _) => Ret (VStr (String c EmptyString))
  | VStr EmptyString => Raise IndexError
  | VDict _ => Raise KeyError
  | _ => Raise TypeError
  end.

(** [str(v)], as an f-string renders [v]; [repr] stands for the
    interpreter's rendering of lists and dicts. *)
Definition str (repr : value -> string) (v : value) : string :=
  match v with
  | VNone => "None"
  | VBool true => "True"
  | VBool false => "False"
  | VInt z => NilEmpty.string_of_int (Z.to_int z)
  | VStr s => s
  | VList _ | VDict _ => repr v
  end.

End Py.
Export Py.

(** ** HTTP requests through [requests] *)

Inductive method := GET | POST.

Inductive body :=
| NoBody
| FormData (fields : list (string * option string))  (* [data=] a dict *)
| JsonData (v : value).                              (* [data=json.dumps(v)], [json=v] *)

Record request := mkRequest {
  meth : method;
  url : string;
  headers : list (string * string);
  payload : body;
  timeout : option Z            (* [None]: no [timeout=] argument *)
}.

(** What a call comes back with: an exception of [requests] (connection
    error, timeout), or a response with its status code and, when the body
    decodes as JSON, the decoded body. *)
Inductive reply :=
| Failure
| Response (status_code : Z) (content : option value).

(** The directory answers a request knowing the requests made before. *)
Definition network := list request -> request -> reply.

(** ** Log records *)

Inductive level := INFO | WARNING | ERROR.

Inductive message :=
(* hr_employee.py, _create_azure_email *)
| CredentialsMissing
| Processing (name email : string)
| NoAccessToken
| EmailAvailable (email : string)
| EmailExists (next : string)
| CheckError (status : Z)
| Created (email : string)
| CreateFailed (error : value)
| ExceptionCaught (e : exn)
(* hr_employee.py, _add_to_dept_dl *)
| AddedToDl (name dl_email : string)
| AlreadyInDl (name dl_email : string)
| AddStatus (status : Z)
| AddException (e : exn)
(* hr_department.py, action_sync_dl_from_azure *)
| DeptCredentialsMissing
| DeptNoToken
| Searching (email : string)
| TryingLowercase (email : string)
| Linked (name mail : string)
| DlNotFound (upper lower : string)
| DeptError (e : exn).

Record world := mkWorld {
  calls : list request;               (* oldest first *)
  logs : list (level * message)       (* oldest first *)
}.

Definition world0 : world := mkWorld [] [].

(** ** Records of the ORM *)

Module Department.
Record t := mk {
  name : option string;
  azure_dl_email : option string;
  azure_dl_id : option string
}.
End Department.

Module Employee.
Record t := mk {
  name : option string;
  azure_user_id : option string;
  azure_email : option string;
  work_email : option string
}.
End Employee.

(** An employee together with the record [department_id] points to
    ([None]: the empty recordset). *)
Record store := mkStore {
  self : Employee.t;
  department_id : option Department.t
}.

(** System parameters, as [ir.config_parameter.get_param] returns them
    ([None]: the parameter is not set and [get_param] gives [False]). *)
Record config := mkConfig {
  azure_tenant_id : option string;
  azure_client_id : option string;
  azure_client_secret : option string;
  azure_domain : option string
}.

(** ** The monad of a method body: state, log, calls and exceptions *)

Definition M (R A : Type) : Type := R * world -> outcome A * (R * world).

Definition ret {R A} (a : A) : M R A := fun s => (Ret a, s).

Definition raise {R A} (e : exn) : M R A := fun s => (Raise e, s).

Definition bind {R A B} (m : M R A) (k : A -> M R B) : M R B :=
  fun s =>
    match m s with
    | (Ret a, s') => k a s'
    | (Raise e, s') => (Raise e, s')
    end.

Notation "x <- m ;; k" := (bind m (fun x => k))
  (at level 61, m at next level, right associativity).
Notation "m ;;; k" := (bind m (fun _ => k))
  (at level 61, right associativity).

(** [try: body except Exception as e: handler(e)] *)
Definition try_except {R A} (body : M R A) (handler : exn -> M R A) : M R A :=
  fun s =>
    match body s with
    | (Ret a, s') => (Ret a, s')
    | (Raise e, s') => handler e s'
    end.

Definition lift {R A} (o : outcome A) : M R A := fun s => (o, s).

Definition get_state {R} : M R R := fun s => (Ret (fst s), s).

Definition put_state {R} (r : R) : M R unit := fun s => (Ret tt, (r, snd s)).

Definition log {R} (l : level) (m : message) : M R unit :=
  fun s =>
    let w := snd s in
    (Ret tt, (fst s, mkWorld (calls w) (logs w ++ [(l, m)])%list)).

(** One call of [requests.get] / [requests.post]. *)
Definition send {R} (net : network) (q : request) : M R (Z * option value) :=
  fun s =>
    let w := snd s in
    let s' := (fst s, mkWorld (calls w ++ [q])%list (logs w)) in
    match net (calls w) q with
    | Failure => (Raise RequestException, s')
    | Response code content => (Ret (code, content), s')
    end.

(** [response.raise_for_status()] *)
Definition raise_for_status {R} (resp : Z * option value) : M R unit :=
  let code := fst resp in
  if ((400 <=? code) && (code <? 600))%Z then raise (HTTPError code) else ret tt.

(** [response.json()] *)
Definition json {R} (resp : Z * option value) : M R value :=
  match snd resp with
  | Some v => ret v
  | None => raise JSONDecodeError
  end.

(** A method of [str] called on a [Char] field: [False] has none. *)
Definition as_str {R} (f : option string) : M R string :=
  match f with
  | Some s => ret s
  | None => raise AttributeError
  end.

(** ** The two models *)

Section Models.

(** The interpreter's [str] of a list or dict. *)
Variable repr : value -> string.

(** The remote side: token endpoint and directory. *)
Variable net : network.

(** [HRDepartment.create_dl], which [_add_to_dept_dl] calls and which is
    defined in neither model file: any method body over the department. *)
Variable create_dl : M Department.t unit.

Definition graph := "https://graph.microsoft.com/v1.0".

Definition token_url (tenant : option string) : string :=
  "https://login.microsoftonline.com/" ++ fmt_char tenant ++ "/oauth2/v2.0/token".

Definition token_data (client_id client_secret : option string) : body :=
  FormData [ ("grant_type", Some "client_credentials");
             ("client_id", client_id);
             ("client_secret", client_secret);
             ("scope", Some "https://graph.microsoft.com/.default") ].

Definition token_request (tenant client_id client_secret : option string)
    (timeout : option Z) : request :=
  mkRequest POST (token_url tenant) [] (token_data client_id client_secret) timeout.

Definition bearer (token : value) : string * string :=
  ("Authorization", "Bearer " ++ str repr token).

(** *** hr_employee.py *)

(** [all([tenant_id, client_id, client_secret, domain])] *)
Definition all_set (cfg : config) : bool :=
  truthy_char (azure_tenant_id cfg) && truthy_char (azure_client_id cfg)
  && truthy_char (azure_client_secret cfg) && truthy_char (azure_domain cfg).

Definition check_url (unique_email : string) : string :=
  graph ++ "/users/" ++ unique_email.

Definition check_request (hdrs : list (string * string)) (unique_email : string)
  : request :=
  mkRequest GET (check_url unique_email) hdrs NoBody (Some 30%Z).

(** STEP 4, lines 85-103: the [while count < 100] loop.  It ends with
    [Some unique_email] when it breaks or its guard fails, and with
    [None] when the method returns from inside it.  [fuel] bounds the
    iterations; 100 is never used up, as [count] starts at 1. *)
Fixpoint probe (fuel : nat) (hdrs : list (string * string))
    (base domain : string) (count : nat) (unique_email : string)
  : M store (option string) :=
  match fuel with
  | O => raise OutOfFuel
  | S fuel' =>
      if (count <? 100)%nat then
        check <- send net (check_request hdrs unique_email) ;;
        if (fst check =? 404)%Z then
          log INFO (EmailAvailable unique_email) ;;;
          ret (Some unique_email)
        else if (fst check =? 200)%Z then
          let count := (count + 1)%nat in
          let unique_email := base ++ PyStr.of_nat count ++ "@" ++ domain in
          log INFO (EmailExists unique_email) ;;;
          probe fuel' hdrs base domain count unique_email
        else
          log ERROR (CheckError (fst check)) ;;;
          ret None
      else ret (Some unique_email)
  end.

(** STEP 5, lines 108-118 *)
Definition create_payload (name : option string) (unique_email : string) : value :=
  VDict [ ("accountEnabled", VBool true);
          ("displayName", match name with Some n => VStr n | None => VBool false end);
          ("mailNickname", VStr (PyStr.before "@" unique_email));
          ("userPrincipalName", VStr unique_email);
          ("usageLocation", VStr "AE");
          ("passwordProfile",
            VDict [ ("forceChangePasswordNextSignIn", VBool true);
                    ("password", VStr "Welcome@123") ]) ].

Definition create_request (hdrs : list (string * string))
    (name : option string) (unique_email : string) : request :=
  mkRequest POST (graph ++ "/users") hdrs
    (JsonData (create_payload name unique_email)) (Some 30%Z).

(** STEP 2, lines 50-54: the base and the first address to try. *)
Definition derive (name domain : string) : outcome (string * string) :=
  let parts := PyStr.split (PyStr.lower (PyStr.strip name)) in
  match parts with
  | [] => Raise IndexError
  | first :: _ =>
      let last := if (1 <? List.length parts)%nat then List.last parts first
                  else first in
      let base := first ++ "." ++ last in
      let email := base ++ "@" ++ domain in
      Ret (base, email)
  end.

Definition set_emails (unique_email : string) : M store unit :=
  st <- get_state ;;
  let e := self st in
  put_state (mkStore
    (Employee.mk (Employee.name e) (Employee.azure_user_id e)
                 (Some unique_email) (Some unique_email))
    (department_id st)).

(** STEP 5 and STEP 6, lines 120-138: the creation call and the saving of
    its result. *)
Definition create_user (hdrs : list (string * string)) (name : option string)
    (unique_email : string) : M store unit :=
  create_response <- send net (create_request hdrs name unique_email) ;;
  if (fst create_response =? 201)%Z then
    user_data <- json create_response ;;
    set_emails unique_email ;;;
    log INFO (Created unique_email)
  else
    j <- json create_response ;;
    err <- lift (get j "error" (VDict [])) ;;
    error <- lift (get err "message" (VStr "Unknown error")) ;;
    log ERROR (CreateFailed error).

Definition _create_azure_email (cfg : config) : M store unit :=
  let tenant_id := azure_tenant_id cfg in
  let client_id := azure_client_id cfg in
  let client_secret := azure_client_secret cfg in
  let domain := azure_domain cfg in
  if negb (all_set cfg) then
    log ERROR CredentialsMissing
  else
    try_except
      (st <- get_state ;;
       let name := Employee.name (self st) in
       n <- as_str name ;;
       be <- lift (derive n (fmt_char domain)) ;;
       let base := fst be in
       let email := snd be in
       log INFO (Processing n email) ;;;
       token_response <-
         send net (token_request tenant_id client_id client_secret (Some 30%Z)) ;;
       raise_for_status token_response ;;;
       j <- json token_response ;;
       token <- lift (get j "access_token" VNone) ;;
       if negb (truthy token) then
         log ERROR NoAccessToken
       else
         let hdrs := [ bearer token; ("Content-Type", "application/json") ] in
         found <- probe 100 hdrs base (fmt_char domain) 1 email ;;
         match found with
         | None => ret tt
         | Some unique_email => create_user hdrs name unique_email
         end)
      (fun e => log ERROR (ExceptionCaught e)).

(** [dept.create_dl()] on the department of the employee. *)
Definition on_department (m : M Department.t unit) : M store unit :=
  fun s =>
    match department_id (fst s) with
    | None => (Ret tt, s)
    | Some d =>
        let '(o, (d', w')) := m (d, snd s) in
        (o, (mkStore (self (fst s)) (Some d'), w'))
    end.

Definition member_request (hdrs : list (string * string))
    (dl_id user_id : option string) : request :=
  mkRequest POST (graph ++ "/groups/" ++ fmt_char dl_id ++ "/members/$ref") hdrs
    (JsonData (VDict [ ("@odata.id",
                        VStr (graph ++ "/users/" ++ fmt_char user_id)) ]))
    None.

(** Lines 155-191: the [try] block of [_add_to_dept_dl]. *)
Definition add_member (cfg : config) (e : Employee.t) (dept : Department.t)
  : M store unit :=
  try_except
    (let tenant := azure_tenant_id cfg in
     let client := azure_client_id cfg in
     let secret := azure_client_secret cfg in
     token_response <-
       send net (token_request tenant client secret None) ;;
     token_resp <- json token_response ;;
     token <- lift (get token_resp "access_token" VNone) ;;
     let hdrs := [ bearer token; ("Content-Type", "application/json") ] in
     add_response <-
       send net (member_request hdrs (Department.azure_dl_id dept)
                   (Employee.azure_user_id e)) ;;
     if (fst add_response =? 204)%Z then
       log INFO (AddedToDl (fmt_char (Employee.name e))
                           (fmt_char (Department.azure_dl_email dept)))
     else if (fst add_response =? 400)%Z then
       log INFO (AlreadyInDl (fmt_char (Employee.name e))
                             (fmt_char (Department.azure_dl_email dept)))
     else
       log ERROR (AddStatus (fst add_response)))
    (fun e => log ERROR (AddException e)).

Definition _add_to_dept_dl (cfg : config) : M store unit :=
  st <- get_state ;;
  match department_id st with
  | None => ret tt
  | Some dept =>
      if negb (truthy_char (Employee.azure_user_id (self st))) then ret tt
      else
        (if negb (truthy_char (Department.azure_dl_id dept))
         then on_department create_dl else ret tt) ;;;
        st <- get_state ;;
        match department_id st with
        | None => ret tt
        | Some dept =>
            if truthy_char (Department.azure_dl_id dept)
            then add_member cfg (self st) dept
            else ret tt
        end
  end.

(** [HREmployee.create]: [st] is the record [super().create(vals)] made. *)
Definition create (cfg : config) : M store unit :=
  st <- get_state ;;
  if truthy_char (Employee.name (self st)) then
    _create_azure_email cfg ;;;
    st <- get_state ;;
    match department_id st with
    | Some _ =>
        if truthy_char (Employee.azure_user_id (self st))
        then _add_to_dept_dl cfg else ret tt
    | None => ret tt
    end
  else ret tt.

(** *** hr_department.py *)

(** The client action a button method returns. *)
Inductive notification :=
| CredentialsNotice                            (* danger *)
| LinkedNotice (mail : value)                  (* success *)
| NotFoundNotice (upper_email lower_email : string)   (* warning *)
| ErrorNotice (e : exn).                       (* danger *)

(** What the ORM stores in a [Char] field for a written value. *)
Definition to_char (v : value) : option string :=
  match v with
  | VNone | VBool false => None
  | _ => Some (str repr v)
  end.

Definition search_url (expected_dl_email : string) : string :=
  graph ++ "/groups?$filter=mail eq '" ++ expected_dl_email ++ "'".

Definition search_request (hdrs : list (string * string))
    (expected_dl_email : string) : request :=
  mkRequest GET (search_url expected_dl_email) hdrs NoBody (Some 30%Z).

(** Lines 56-57 *)
Definition dept_name_upper (name : string) : string :=
  PyStr.replace "&" "and" (PyStr.replace " " "_" name).

Definition dept_name_lower (name : string) : string :=
  PyStr.replace "&" "and" (PyStr.replace " " "_" (PyStr.lower name)).

Definition dl_email (dept_name domain : string) : string :=
  "DL_" ++ dept_name ++ "@" ++ domain.

(** Lines 66-70 and 78-81: one search and the groups read from it;
    [groups] is kept when the status is not 200. *)
Definition search (hdrs : list (string * string)) (expected_dl_email : string)
    (groups : value) : M Department.t value :=
  response <- send net (search_request hdrs expected_dl_email) ;;
  if (fst response =? 200)%Z then
    j <- json response ;;
    lift (get j "value" (VList []))
  else ret groups.

Definition write_link (mail id : value) : M Department.t unit :=
  d <- get_state ;;
  put_state (Department.mk (Department.name d) (to_char mail) (to_char id)).

(** Lines 84-108: link the first of the groups found, or tell that none
    was found. *)
Definition link_first (name upper lower domain : string) (groups : value)
  : M Department.t (option notification) :=
  if truthy groups then
    group <- lift (item0 groups) ;;
    mail <- lift (get group "mail" VNone) ;;
    id <- lift (get group "id" VNone) ;;
    write_link mail id ;;;
    log INFO (Linked name (str repr mail)) ;;;
    ret (Some (LinkedNotice mail))
  else
    log WARNING (DlNotFound upper lower) ;;;
    ret (Some (NotFoundNotice (dl_email upper domain) (dl_email lower domain))).

(** [self] is the one department of the recordset, so [ensure_one]
    passes. *)
Definition action_sync_dl_from_azure (cfg : config)
  : M Department.t (option notification) :=
  let tenant := azure_tenant_id cfg in
  let client := azure_client_id cfg in
  let secret := azure_client_secret cfg in
  let domain := azure_domain cfg in
  if negb (all_set cfg) then
    log ERROR DeptCredentialsMissing ;;;
    ret (Some CredentialsNotice)
  else
    try_except
      (token_response <-
         send net (token_request tenant client secret (Some 30%Z)) ;;
       token_resp <- json token_response ;;
       token <- lift (get token_resp "access_token" VNone) ;;
       if negb (truthy token) then
         log ERROR DeptNoToken ;;;
         ret None
       else
         let hdrs := [ bearer token ] in
         d <- get_state ;;
         name <- as_str (Department.name d) ;;
         let upper := dept_name_upper name in
         let lower := dept_name_lower name in
         let expected_dl_email := dl_email upper (fmt_char domain) in
         log INFO (Searching expected_dl_email) ;;;
         groups <- search hdrs expected_dl_email (VList []) ;;
         groups <-
           (if negb (truthy groups) && negb (upper =? lower) then
              let expected_dl_email := dl_email lower (fmt_char domain) in
              log INFO (TryingLowercase expected_dl_email) ;;;
              search hdrs expected_dl_email groups
            else ret groups) ;;
         link_first name upper lower (fmt_char domain) groups)
      (fun e =>
         log ERROR (DeptError e) ;;;
         ret (Some (ErrorNotice e))).

End Models.


(** ** Directories to run the models against *)

Definition token_reply : reply :=
  Response 200 (Some (VDict [("access_token", VStr "tok")])).

Definition created_reply : reply :=
  Response 201 (Some (VDict [("id", VStr "u-1")])).

(** The k-th candidate address for a base: the bare address first, then the
    base with the suffixes 2, 3, ... *)
Definition candidate (base domain : string) (k : nat) : string :=
  if (k =? 1)%nat then base ++ "@" ++ domain
  else base ++ PyStr.of_nat k ++ "@" ++ domain.

Definition candidates (base domain : string) (n : nat) : list string :=
  List.map (candidate base domain) (List.seq 1 n).

(** A directory holding exactly the accounts [present]: a lookup answers
    200 for them and 404 for any other address; the token endpoint hands
    out a token and account creation succeeds. *)
Definition directory (present : list string) : network :=
  fun _ q =>
    match meth q with
    | GET =>
        if List.existsb (fun a => url q =? check_url a) present
        then Response 200 (Some (VDict []))
        else Response 404 None
    | POST =>
        if url q =? graph ++ "/users" then created_reply else token_reply
    end.

(** A directory in which every looked-up address is taken. *)
Definition crowded : network :=
  fun _ q =>
    match meth q with
    | GET => Response 200 (Some (VDict []))
    | POST => if url q =? graph ++ "/users" then created_reply else token_reply
    end.

Definition no_repr : value -> string := fun _ => EmptyString.

Definition no_create_dl : M Department.t unit := ret tt.

Definition techcarrot : config :=
  mkConfig (Some "tenant") (Some "client") (Some "secret") (Some "techcarrot.ae").

Definition lalith : store :=
  mkStore (Employee.mk (Some "Lalith Kumar") None None None) None.


(** The status code of a reply, when there is one. *)
Definition status_of (r : reply) : option Z :=
  match r with
  | Failure => None
  | Response code _ => Some code
  end.

(** The log of a probing loop that starts at [count], finds [n] addresses
    in a row taken and the next one free. *)
Definition probe_log (base domain : string) (count n : nat)
  : list (level * message) :=
  (List.map (fun k => (INFO, EmailExists (candidate base domain (S k))))
     (List.seq count n)
   ++ [(INFO, EmailAvailable (candidate base domain (count + n)))])%list.

(** The log of a probing loop that starts at [count] and finds the [n]
    addresses up to the last one it may look up taken. *)
Definition exhausted_log (base domain : string) (count n : nat)
  : list (level * message) :=
  List.map (fun k => (INFO, EmailExists (candidate base domain (S k))))
    (List.seq count n).

(** The headers sent once [token_reply] has been received. *)
Definition tok_hdrs : list (string * string) :=
  [ ("Authorization", "Bearer tok"); ("Content-Type", "application/json") ].

(** The employee after both address fields have been set to [a]. *)
Definition with_emails (st : store) (a : string) : store :=
  mkStore
    (Employee.mk (Employee.name (self st)) (Employee.azure_user_id (self st))
                 (Some a) (Some a))
    (department_id st).

(** What allocation is expected to do when exactly the first [N]
    candidates are taken: after the token request, look up the first [N + 1]
    candidates in order and create the account under the last of them. *)
Definition allocates_after (N : nat) : Prop :=
  forall (repr : value -> string) (cfg : config) (name base email : string)
         (st : store) (w : world),
    all_set cfg = true ->
    Employee.name (self st) = Some name ->
    derive name (fmt_char (azure_domain cfg)) = Ret (base, email) ->
    let domain := fmt_char (azure_domain cfg) in
    _create_azure_email repr (directory (candidates base domain N)) cfg (st, w)
    = (Ret tt,
       (with_emails st (candidate base domain (N + 1)),
        mkWorld
          (calls w
           ++ token_request (azure_tenant_id cfg) (azure_client_id cfg)
                (azure_client_secret cfg) (Some 30%Z)
           :: List.map (check_request tok_hdrs) (candidates base domain (N + 1))
           ++ [create_request tok_hdrs (Some name)
                 (candidate base domain (N + 1))])%list
          (logs w
           ++ (INFO, Processing name email)
           :: probe_log base domain 1 N
           ++ [(INFO, Created (candidate base domain (N + 1)))])%list)).

(** The creation call is the only one that posts a JSON document to the
    directory in [_create_azure_email]. *)
Definition is_create (q : request) : bool :=
  match meth q, payload q with
  | POST, JsonData _ => true
  | _, _ => false
  end.

(** ** Departments and groups to run the models against *)

Definition no_config : config := mkConfig None None None None.

Definition sales : Department.t :=
  Department.mk (Some "Sales") (Some "DL_Sales@techcarrot.ae") (Some "g-1").

(** An employee with an account, in a department that is linked. *)
Definition kumar_in_sales : store :=
  mkStore
    (Employee.mk (Some "Lalith Kumar") (Some "u-1")
       (Some "lalith.kumar@techcarrot.ae") (Some "lalith.kumar@techcarrot.ae"))
    (Some sales).

Definition sales_unlinked : Department.t :=
  Department.mk (Some "Sales") None None.

Definition hr_unlinked : Department.t :=
  Department.mk (Some "hr") None None.

(** A directory of group memberships: the first append of a member to a
    group answers 204, a repeated one 400. *)
Definition group_members : network :=
  fun hist q =>
    match payload q with
    | JsonData _ =>
        if List.existsb (fun p => url p =? url q) hist
        then Response 400 (Some (VDict [("error", VDict [])]))
        else Response 204 None
    | _ => token_reply
    end.

Definition group (mail id : string) : value :=
  VDict [("mail", VStr mail); ("id", VStr id)].

(** A directory of groups: a search by mail answers with the groups of
    [groups] that carry this mail. *)
Definition group_directory (groups : list (string * string)) : network :=
  fun _ q =>
    match meth q with
    | GET =>
        Response 200
          (Some (VDict
             [("value",
               VList (List.map (fun g => group (fst g) (snd g))
                        (List.filter (fun g => url q =? search_url (fst g))
                           groups)))]))
    | POST => token_reply
    end.

(** A search reply that holds no group: any status but 200, or a 200
    whose list of groups is empty. *)
Definition no_match (r : reply) : bool :=
  match r with
  | Failure => false
  | Response code content =>
      if (code =? 200)%Z then
        match content with
        | Some j =>
            match get j "value" (VList []) with
            | Ret groups => negb (truthy groups)
            | Raise _ => false
            end
        | None => false
        end
      else true
  end.

(** The calls of a sync: the token request and the searches for the upper
    and the lower form of the name [n], sent with the token [token]. *)
Definition sync_token (cfg : config) : request :=
  token_request (azure_tenant_id cfg) (azure_client_id cfg)
    (azure_client_secret cfg) (Some 30%Z).

Definition upper_search (repr : value -> string) (cfg : config) (token : value)
    (n : string) : request :=
  search_request [bearer repr token]
    (dl_email (dept_name_upper n) (fmt_char (azure_domain cfg))).

Definition lower_search (repr : value -> string) (cfg : config) (token : value)
    (n : string) : request :=
  search_request [bearer repr token]
    (dl_email (dept_name_lower n) (fmt_char (azure_domain cfg))).

(** What one search gives back for its reply: an exception, or the groups
    read from a 200, or the groups held before for any other status. *)
Definition search_result (r : reply) (groups : value) : outcome value :=
  match r with
  | Failure => Raise RequestException
  | Response code content =>
      if (code =? 200)%Z then
        match content with
        | Some j => get j "value" (VList [])
        | None => Raise JSONDecodeError
        end
      else Ret groups
  end.

(** The log record of [_add_to_dept_dl] for the status of the append. *)
Definition add_log (e : Employee.t) (dept : Department.t) (code : Z)
  : level * message :=
  if (code =? 204)%Z then
    (INFO, AddedToDl (fmt_char (Employee.name e))
                     (fmt_char (Department.azure_dl_email dept)))
  else if (code =? 400)%Z then
    (INFO, AlreadyInDl (fmt_char (Employee.name e))
                       (fmt_char (Department.azure_dl_email dept)))
  else (ERROR, AddStatus code).

(** A linked department is never linked anew by a sync. *)
Definition link_set_once : Prop :=
  forall (repr : value -> string) (net : network) (cfg : config)
         (d : Department.t) (w : world),
    truthy_char (Department.azure_dl_id d) = true ->
    fst (snd (action_sync_dl_from_azure repr net cfg (d, w))) = d.

(** The group a search reply puts first: the head of the list under
    [value] of a 200 with a JSON document, which is what [groups[0]]
    reads when the reply is taken. *)
Definition first_group (r : reply) : option value :=
  match r with
  | Response code (Some j) =>
      if (code =? 200)%Z then
        match Py.get j "value" (VList []) with
        | Ret (VList (grp :: _)) => Some grp
        | _ => None
        end
      else None
  | _ => None
  end.

(** A directory in which the list of [Sales] is a new group. *)
Definition regrouped : network :=
  group_directory [("DL_Sales@techcarrot.ae", "g-new")].

(** The runs of [_create_azure_email] from the record [st] and the world
    [w]: no call at all; the token request and some lookups, the record
    unchanged; or these and one creation call, the record changed when that
    call is answered 201 with a JSON body. *)
Inductive run_shape (net : network) (cfg : config) (st : store) (w : world)
  : store * world -> Prop :=
| shape_quiet (lg : list (level * message)) :
    run_shape net cfg st w (st, mkWorld (calls w) lg)
| shape_probed (hdrs : list (string * string)) (ues : list string)
    (lg : list (level * message)) :
    run_shape net cfg st w
      (st,
       mkWorld
         (calls w
          ++ token_request (azure_tenant_id cfg) (azure_client_id cfg)
               (azure_client_secret cfg) (Some 30%Z)
          :: List.map (check_request hdrs) ues)%list lg)
| shape_created (hdrs : list (string * string)) (ues : list string)
    (ue : string) (lg : list (level * message)) :
    let pre :=
      token_request (azure_tenant_id cfg) (azure_client_id cfg)
        (azure_client_secret cfg) (Some 30%Z)
      :: List.map (check_request hdrs) ues in
    let q := create_request hdrs (Employee.name (self st)) ue in
    run_shape net cfg st w
      (match net (calls w ++ pre)%list q with
       | Response 201 (Some _) => with_emails st ue
       | _ => st
       end,
       mkWorld (calls w ++ pre ++ [q])%list lg).

(** ** Further notions for the properties of the runs *)

(** The URLs a run has looked up: those of its [GET] calls, oldest first. *)
Definition is_get (q : request) : bool :=
  match meth q with GET => true | POST => false end.

Definition looked_up (qs : list request) : list string :=
  List.map url (List.filter is_get qs).

(** [c in s] *)
Fixpoint occurs (c : ascii) (s : string) : bool :=
  match s with
  | EmptyString => false
  | String d r => Ascii.eqb d c || occurs c r
  end.

(** Whether [s] holds a white-space character. *)
Fixpoint has_space (s : string) : bool :=
  match s with
  | EmptyString => false
  | String d r => PyStr.is_space d || has_space r
  end.

(** The part of the k-th candidate address before its [@]. *)
Definition local_part (base : string) (k : nat) : string :=
  if (k =? 1)%nat then base else base ++ PyStr.of_nat k.

(** The token request of [_create_azure_email]. *)
Definition provision_token (cfg : config) : request :=
  token_request (azure_tenant_id cfg) (azure_client_id cfg)
    (azure_client_secret cfg) (Some 30%Z).

(** The calls a sync may add to the history: none; the token request; the
    token request and the search for the upper form; these and the search
    for the lower form, when the two forms differ. *)
Inductive sync_shape (repr : value -> string) (cfg : config) (w : world)
  : list request -> Prop :=
| sync_quiet : sync_shape repr cfg w []
| sync_at_token : sync_shape repr cfg w [sync_token cfg]
| sync_one_search token n :
    sync_shape repr cfg w [sync_token cfg; upper_search repr cfg token n]
| sync_two_searches token n :
    dept_name_upper n <> dept_name_lower n ->
    sync_shape repr cfg w
      [sync_token cfg; upper_search repr cfg token n; lower_search repr cfg token n].

(** A network that is down: every call fails. *)
Definition offline : network := fun _ _ => Failure.

(** A token endpoint that refuses the client, with an error document. *)
Definition token_denied : network :=
  fun _ _ => Response 401 (Some (VDict [("error", VStr "invalid_client")])).

(** An endpoint that answers 200 with an empty document. *)
Definition tokenless : network := fun _ _ => Response 200 (Some (VDict [])).

(** A directory whose lookups fail with 500; tokens are handed out. *)
Definition faulty_directory : network :=
  fun _ q =>
    match meth q with
    | GET => Response 500 None
    | POST => token_reply
    end.

(** A recordset without the method [create_dl]: calling it raises
    [AttributeError]. *)
Definition missing_create_dl : M Department.t unit := raise AttributeError.

(** A [create_dl] that links the department to a new group. *)
Definition linking_create_dl : M Department.t unit :=
  d <- get_state ;;
  put_state (Department.mk (Department.name d)
               (Some "DL_Sales@techcarrot.ae") (Some "g-1")).

(** An employee with an account, in a department that is not linked. *)
Definition kumar_unlinked : store :=
  mkStore (self kumar_in_sales) (Some sales_unlinked).

(** An employee whose name is white space only. *)
Definition blank : store :=
  mkStore (Employee.mk (Some "   ") None None None) None.

(** A directory of groups holding the upper form of [Sales] only. *)
Definition upper_only : network :=
  group_directory [("DL_Sales@techcarrot.ae", "g-1")].

(** * Properties *)

(** ** Strings *)

Lemma is_space_lower_char c : PyStr.is_space (PyStr.lower_char c) = PyStr.is_space c.
Proof. destruct c as [[] [] [] [] [] [] [] []]; reflexivity. Qed.

Lemma append_nil_r (s : string) : s ++ EmptyString = s.
Proof. induction s as [|c s IH]; simpl; [reflexivity | now rewrite IH]. Qed.

Lemma append_assoc (a b c : string) : (a ++ b) ++ c = a ++ (b ++ c).
Proof. induction a as [|x a IH]; simpl; [reflexivity | now rewrite IH]. Qed.

Lemma append_length (a b : string) :
  String.length (a ++ b) = (String.length a + String.length b)%nat.
Proof. induction a as [|x a IH]; simpl; [reflexivity | now rewrite IH]. Qed.

Lemma append_inv_head (a b c : string) : a ++ b = a ++ c -> b = c.
Proof.
  induction a as [|x a IH]; simpl; intros H; [exact H|].
  injection H as H. now apply IH.
Qed.

Lemma append_inv_tail (t a b : string) : a ++ t = b ++ t -> a = b.
Proof.
  revert b. induction a as [|x a IH]; intros [|y b] H; simpl in H.
  - reflexivity.
  - apply (f_equal String.length) in H. simpl in H.
    rewrite append_length in H. lia.
  - apply (f_equal String.length) in H. simpl in H.
    rewrite append_length in H. lia.
  - injection H as Hxy H. subst y. f_equal. now apply IH.
Qed.

Lemma lower_append (a b : string) :
  PyStr.lower (a ++ b) = PyStr.lower a ++ PyStr.lower b.
Proof. induction a as [|x a IH]; simpl; [reflexivity | now rewrite IH]. Qed.

Lemma split_from_lower (s cur : string) :
  PyStr.split_from (PyStr.lower cur) (PyStr.lower s)
  = List.map PyStr.lower (PyStr.split_from cur s).
Proof.
  revert cur. induction s as [|c r IH]; intros cur; simpl.
  - destruct cur; reflexivity.
  - rewrite is_space_lower_char. destruct (PyStr.is_space c).
    + destruct cur; simpl; [apply (IH EmptyString) | f_equal; apply (IH EmptyString)].
    + rewrite <- IH, lower_append. reflexivity.
Qed.

Lemma split_from_lstrip (s : string) :
  PyStr.split_from EmptyString (PyStr.lstrip s) = PyStr.split_from EmptyString s.
Proof.
  induction s as [|c r IH]; simpl; [reflexivity|].
  destruct (PyStr.is_space c) eqn:E; [exact IH|].
  simpl. now rewrite E.
Qed.

Lemma split_from_rstrip (s cur : string) :
  PyStr.split_from cur (PyStr.rstrip s) = PyStr.split_from cur s.
Proof.
  revert cur. induction s as [|c r IH]; intros cur; [reflexivity|].
  simpl PyStr.rstrip. destruct (PyStr.rstrip r) as [|a r'] eqn:E.
  - destruct (PyStr.is_space c) eqn:Ec; simpl; rewrite Ec.
    + rewrite <- (IH EmptyString). destruct cur; reflexivity.
    + now rewrite <- IH.
  - simpl. destruct (PyStr.is_space c); [|apply IH].
    rewrite <- (IH EmptyString). reflexivity.
Qed.

Lemma split_lower_strip (s : string) :
  PyStr.split (PyStr.lower (PyStr.strip s)) = List.map PyStr.lower (PyStr.split s).
Proof.
  unfold PyStr.split, PyStr.strip.
  rewrite (split_from_lower _ EmptyString), split_from_rstrip, split_from_lstrip.
  reflexivity.
Qed.

Lemma last_map_lower (ps : list string) (p : string) :
  List.last (List.map PyStr.lower ps) (PyStr.lower p) = PyStr.lower (List.last ps p).
Proof.
  induction ps as [|q ps IH]; [reflexivity|].
  simpl. destruct ps; [reflexivity | exact IH].
Qed.

(** C3.  A display name with two or more white-space separated parts gives
    the base [lower(first part) . lower(last part)], a name of one part
    gives [lower(part) . lower(part)], and the first address tried is the
    base, an at sign and the domain; the parts are changed by lower-casing
    only. *)
Theorem derive_first_dot_last (name domain : string) :
  (forall part,
      PyStr.split name = [part] ->
      let base := PyStr.lower part ++ "." ++ PyStr.lower part in
      derive name domain = Ret (base, base ++ "@" ++ domain))
  /\
  (forall first rest,
      PyStr.split name = first :: rest ->
      rest <> [] ->
      let base := PyStr.lower first ++ "." ++ PyStr.lower (List.last rest first) in
      derive name domain = Ret (base, base ++ "@" ++ domain)).
Proof.
  split.
  - intros part H base. unfold derive. rewrite split_lower_strip, H. reflexivity.
  - intros first rest H Hrest base. unfold derive.
    rewrite split_lower_strip, H.
    destruct rest as [|q rest]; [congruence|].
    cbn [List.map List.length Nat.ltb Nat.leb].
    change (List.last (PyStr.lower first :: PyStr.lower q :: List.map PyStr.lower rest)
              (PyStr.lower first))
      with (List.last (List.map PyStr.lower (first :: q :: rest)) (PyStr.lower first)).
    rewrite last_map_lower.
    change (List.last (first :: q :: rest) first) with (List.last (q :: rest) first).
    reflexivity.
Qed.

Lemma derive_first_dot_last_witness :
  PyStr.split "Lalith Kumar" = ["Lalith"; "Kumar"]
  /\ derive "Lalith Kumar" "techcarrot.ae"
     = Ret ("lalith.kumar", "lalith.kumar@techcarrot.ae")
  /\ derive "  Madonna " "techcarrot.ae"
     = Ret ("madonna.madonna", "madonna.madonna@techcarrot.ae").
Proof.
  split; [reflexivity|]. split.
  - apply (proj2 (derive_first_dot_last "Lalith Kumar" "techcarrot.ae")
             "Lalith" ["Kumar"]); [reflexivity | discriminate].
  - apply (proj1 (derive_first_dot_last "  Madonna " "techcarrot.ae") "Madonna").
    reflexivity.
Defined.

(** ** Candidate addresses are pairwise distinct *)

Lemma of_nat_inj (j k : nat) : PyStr.of_nat j = PyStr.of_nat k -> j = k.
Proof.
  unfold PyStr.of_nat. intros H.
  apply (f_equal NilEmpty.uint_of_string) in H.
  rewrite !NilEmpty.usu in H. injection H as H.
  apply (f_equal Nat.of_uint) in H.
  now rewrite !DecimalNat.Unsigned.of_to in H.
Qed.

Lemma of_nat_not_empty (k : nat) : PyStr.of_nat k <> EmptyString.
Proof.
  unfold PyStr.of_nat. intros H.
  apply (f_equal NilEmpty.uint_of_string) in H.
  rewrite NilEmpty.usu in H. simpl in H. injection H as H.
  pose proof (DecimalNat.Unsigned.of_to k) as E. rewrite H in E. simpl in E.
  subst k. discriminate H.
Qed.

Lemma candidate_inj (base domain : string) (j k : nat) :
  candidate base domain j = candidate base domain k -> j = k.
Proof.
  unfold candidate.
  destruct (Nat.eqb_spec j 1) as [->|Hj], (Nat.eqb_spec k 1) as [->|Hk];
    intros H; try reflexivity; apply append_inv_head in H.
  - exfalso. apply (of_nat_not_empty k). symmetry.
    apply (append_inv_tail ("@" ++ domain)). exact H.
  - exfalso. apply (of_nat_not_empty j).
    apply (append_inv_tail ("@" ++ domain)). exact H.
  - apply of_nat_inj. apply (append_inv_tail ("@" ++ domain)). exact H.
Qed.

Lemma candidate_suffixed (base domain : string) (count : nat) :
  (1 <= count)%nat ->
  base ++ PyStr.of_nat (count + 1) ++ "@" ++ domain
  = candidate base domain (S count).
Proof.
  intros H. unfold candidate.
  destruct (Nat.eqb_spec (S count) 1) as [E|_]; [lia|].
  now rewrite Nat.add_1_r.
Qed.

Lemma directory_lookup (present : list string) (hist : list request)
    (hdrs : list (string * string)) (a : string) :
  directory present hist (check_request hdrs a)
  = if List.existsb (fun b => a =? b) present
    then Response 200 (Some (VDict [])) else Response 404 None.
Proof.
  unfold directory, check_request. cbn [meth url].
  replace (List.existsb (fun b => check_url a =? check_url b) present)
    with (List.existsb (fun b => a =? b) present); [reflexivity|].
  induction present as [|b present IH]; [reflexivity|].
  cbn [List.existsb]. rewrite IH. reflexivity.
Qed.

Lemma existsb_candidates (base domain : string) (n k : nat) :
  List.existsb (fun b => candidate base domain k =? b) (candidates base domain n)
  = ((1 <=? k) && (k <=? n))%nat.
Proof.
  unfold candidates.
  destruct (List.existsb _ _) eqn:E.
  - apply List.existsb_exists in E. destruct E as [b [Hin Hb]].
    apply String.eqb_eq in Hb. apply List.in_map_iff in Hin.
    destruct Hin as [j [Hj Hin]]. subst b. apply candidate_inj in Hb. subst j.
    apply List.in_seq in Hin. symmetry. apply andb_true_iff.
    split; apply Nat.leb_le; lia.
  - symmetry. apply not_true_is_false. intros H.
    apply andb_true_iff in H. destruct H as [H1 H2].
    apply Nat.leb_le in H1, H2.
    assert (List.existsb (fun b => candidate base domain k =? b)
              (List.map (candidate base domain) (List.seq 1 n)) = true) as X.
    { apply List.existsb_exists. exists (candidate base domain k). split.
      - apply List.in_map. apply List.in_seq. lia.
      - apply String.eqb_refl. }
    congruence.
Qed.

(** ** The probing loop *)

Lemma probe_taken (net : network) (hdrs : list (string * string))
    (base domain : string) (n : nat) :
  forall (fuel count : nat) (st : store) (w : world),
    (1 <= count)%nat -> (count + n <= 99)%nat -> (n < fuel)%nat ->
    (forall k hist, (count <= k < count + n)%nat ->
       status_of (net hist (check_request hdrs (candidate base domain k)))
       = Some 200%Z) ->
    (forall hist,
       status_of (net hist (check_request hdrs (candidate base domain (count + n))))
       = Some 404%Z) ->
    probe net fuel hdrs base domain count (candidate base domain count) (st, w)
    = (Ret (Some (candidate base domain (count + n))),
       (st, mkWorld
              (calls w ++ List.map (check_request hdrs)
                 (List.map (candidate base domain) (List.seq count (S n))))%list
              (logs w ++ probe_log base domain count n)%list)).
Proof.
  induction n as [|n IH]; intros fuel count st w Hc Hn Hf H200 H404.
  - destruct fuel as [|fuel]; [lia|]. cbn [probe].
    destruct (Nat.ltb_spec count 100) as [_|]; [|lia].
    specialize (H404 (calls w)). rewrite Nat.add_0_r in H404.
    unfold bind, send. cbn [fst snd].
    destruct (net (calls w) _) as [|code content]; [discriminate|].
    cbn in H404. injection H404 as ->.
    cbn. unfold probe_log. cbn. now rewrite Nat.add_0_r.
  - destruct fuel as [|fuel]; [lia|]. cbn [probe].
    destruct (Nat.ltb_spec count 100) as [_|]; [|lia].
    pose proof (H200 count (calls w) ltac:(lia)) as H.
    unfold bind at 1. unfold send at 1. cbn [fst snd].
    destruct (net (calls w) _) as [|code content]; [discriminate|].
    cbn in H. injection H as ->.
    cbn [fst snd Z.eqb Pos.eqb]. unfold bind at 1. unfold log at 1. cbn [fst snd].
    rewrite (candidate_suffixed base domain count Hc), Nat.add_1_r.
    rewrite (IH fuel (S count)); try lia.
    + cbn [calls logs]. rewrite <- !List.app_assoc.
      replace (S count + n)%nat with (count + S n)%nat by lia.
      unfold probe_log. cbn [List.seq List.map List.app].
      replace (S count + n)%nat with (count + S n)%nat by lia.
      reflexivity.
    + intros k hist Hk. apply H200. lia.
    + intros hist. replace (S count + n)%nat with (count + S n)%nat by lia.
      apply H404.
Qed.

(** ** Running a method body *)

Ltac run :=
  cbv beta iota zeta
      delta [bind ret raise lift get_state put_state log send raise_for_status
             json as_str try_except];
  cbn [fst snd calls logs self department_id].

Lemma derive_email (name domain base email : string) :
  derive name domain = Ret (base, email) -> email = base ++ "@" ++ domain.
Proof.
  unfold derive. destruct (PyStr.split _) as [|first rest]; [discriminate|].
  intros H. injection H as <- <-. reflexivity.
Qed.

Lemma directory_token present hist tenant client secret t :
  directory present hist (token_request tenant client secret t) = token_reply.
Proof. reflexivity. Qed.

Lemma directory_create present hist hdrs name a :
  directory present hist (create_request hdrs name a) = created_reply.
Proof. reflexivity. Qed.

(** ** Allocation of an address *)

(** C4, amended.  With exactly the first N candidates taken and N at most
    98, the allocator looks up N + 1 candidates in order, the bare address
    and then the suffixes 2 to N + 1, and creates the account under the
    last of them, the first one the directory does not know. *)
Theorem allocates_after_upto_98 (N : nat) : (N <= 98)%nat -> allocates_after N.
Proof.
  intros HN repr cfg name base email st w Hall Hname Hder domain.
  pose proof (derive_email _ _ _ _ Hder) as He. fold domain in He.
  unfold _create_azure_email. rewrite Hall. cbn [negb].
  run. rewrite Hname, Hder. run.
  rewrite directory_token. unfold token_reply. run.
  cbn [Z.leb Z.ltb Z.compare Pos.compare Pos.compare_cont andb
       Py.get Py.lookup String.eqb Ascii.eqb Bool.eqb truthy negb]. run.
  change [bearer repr (VStr "tok"); ("Content-Type", "application/json")]
    with tok_hdrs.
  subst email. change (base ++ "@" ++ fmt_char (azure_domain cfg))
    with (candidate base domain 1).
  fold domain.
  rewrite (probe_taken _ tok_hdrs base domain N); try lia.
  - unfold create_user. run. rewrite directory_create. unfold created_reply.
    run. cbn [Z.eqb Pos.eqb]. unfold set_emails. run.
    unfold with_emails, candidates.
    replace (1 + N)%nat with (N + 1)%nat by lia.
    replace (S N) with (N + 1)%nat by lia.
    rewrite <- !List.app_assoc. reflexivity.
  - intros k hist Hk. rewrite directory_lookup, existsb_candidates.
    destruct (Nat.leb_spec 1 k); [|lia]. destruct (Nat.leb_spec k N); [|lia].
    reflexivity.
  - intros hist. rewrite directory_lookup, existsb_candidates.
    destruct (Nat.leb_spec (1 + N) N); [lia|].
    rewrite andb_false_r. reflexivity.
Qed.

Lemma allocates_after_upto_98_witness :
  (1 <= 98)%nat
  /\ _create_azure_email no_repr
       (directory ["lalith.kumar@techcarrot.ae"]) techcarrot (lalith, world0)
     = (Ret tt,
        (with_emails lalith "lalith.kumar2@techcarrot.ae",
         mkWorld
           [ token_request (Some "tenant") (Some "client") (Some "secret")
               (Some 30%Z);
             check_request tok_hdrs "lalith.kumar@techcarrot.ae";
             check_request tok_hdrs "lalith.kumar2@techcarrot.ae";
             create_request tok_hdrs (Some "Lalith Kumar")
               "lalith.kumar2@techcarrot.ae" ]
           [ (INFO, Processing "Lalith Kumar" "lalith.kumar@techcarrot.ae");
             (INFO, EmailExists "lalith.kumar2@techcarrot.ae");
             (INFO, EmailAvailable "lalith.kumar2@techcarrot.ae");
             (INFO, Created "lalith.kumar2@techcarrot.ae") ])).
Proof.
  assert (1 <= 98)%nat as H by (apply Nat.leb_le; reflexivity).
  split; [exact H|].
  exact (allocates_after_upto_98 1 H no_repr techcarrot "Lalith Kumar"
           "lalith.kumar" "lalith.kumar@techcarrot.ae" lalith world0
           eq_refl eq_refl eq_refl).
Defined.

(** With the first 99 candidates taken the allocator does not look up a
    hundredth: the run makes 101 calls, not the 102 of [allocates_after]. *)
Lemma not_allocates_after_99 : ~ allocates_after 99.
Proof.
  intros H.
  specialize (H no_repr techcarrot "Lalith Kumar" "lalith.kumar"
                "lalith.kumar@techcarrot.ae" lalith world0
                eq_refl eq_refl eq_refl).
  cbv zeta in H.
  apply (f_equal (fun r => List.length (calls (snd (snd r))))) in H.
  vm_compute in H. discriminate H.
Qed.

(** With every address up to the suffix 99 taken the loop ends by its
    guard, on the suffix 100, which it has not looked up. *)
Lemma probe_exhausted (net : network) (hdrs : list (string * string))
    (base domain : string) (n : nat) :
  forall (fuel count : nat) (st : store) (w : world),
    (1 <= count)%nat -> (count + n = 100)%nat -> (n < fuel)%nat ->
    (forall k hist, (count <= k < 100)%nat ->
       status_of (net hist (check_request hdrs (candidate base domain k)))
       = Some 200%Z) ->
    probe net fuel hdrs base domain count (candidate base domain count) (st, w)
    = (Ret (Some (candidate base domain 100)),
       (st, mkWorld
              (calls w ++ List.map (check_request hdrs)
                 (List.map (candidate base domain) (List.seq count n)))%list
              (logs w ++ exhausted_log base domain count n)%list)).
Proof.
  induction n as [|n IH]; intros fuel count st w Hc Hn Hf H200.
  - destruct fuel as [|fuel]; [lia|]. cbn [probe].
    destruct (Nat.ltb_spec count 100) as [|_]; [lia|].
    replace count with 100%nat by lia. run. unfold exhausted_log.
    cbn [List.seq List.map]. rewrite !List.app_nil_r. now destruct w.
  - destruct fuel as [|fuel]; [lia|]. cbn [probe].
    destruct (Nat.ltb_spec count 100) as [_|]; [|lia].
    pose proof (H200 count (calls w) ltac:(lia)) as H.
    run. destruct (net (calls w) _) as [|code content]; [discriminate|].
    cbn in H. injection H as ->. run. cbn [Z.eqb Pos.eqb]. run.
    rewrite (candidate_suffixed base domain count Hc), Nat.add_1_r.
    rewrite (IH fuel (S count)); try lia.
    + cbn [calls logs]. rewrite <- !List.app_assoc. reflexivity.
    + intros k hist Hk. apply H200. lia.
Qed.

Lemma crowded_lookup hist hdrs a :
  status_of (crowded hist (check_request hdrs a)) = Some 200%Z.
Proof. reflexivity. Qed.

(** C1 (the code departs from it).  In a directory where every looked-up
    address is taken, the loop gives up after the 99 lookups of the bare
    address and the suffixes 2 to 99; the method then creates the account
    under the suffix 100, which it never looked up, stores that address
    and logs no error. *)
Theorem create_azure_email_crowded repr cfg name base email st w :
  all_set cfg = true ->
  Employee.name (self st) = Some name ->
  derive name (fmt_char (azure_domain cfg)) = Ret (base, email) ->
  let domain := fmt_char (azure_domain cfg) in
  _create_azure_email repr crowded cfg (st, w)
  = (Ret tt,
     (with_emails st (candidate base domain 100),
      mkWorld
        (calls w
         ++ token_request (azure_tenant_id cfg) (azure_client_id cfg)
              (azure_client_secret cfg) (Some 30%Z)
         :: List.map (check_request tok_hdrs) (candidates base domain 99)
         ++ [create_request tok_hdrs (Some name) (candidate base domain 100)])%list
        (logs w
         ++ (INFO, Processing name email)
         :: exhausted_log base domain 1 99
         ++ [(INFO, Created (candidate base domain 100))])%list)).
Proof.
  intros Hall Hname Hder domain.
  pose proof (derive_email _ _ _ _ Hder) as He. fold domain in He.
  unfold _create_azure_email. rewrite Hall. cbn [negb].
  run. rewrite Hname, Hder. run.
  change (crowded (calls w) (token_request (azure_tenant_id cfg)
            (azure_client_id cfg) (azure_client_secret cfg) (Some 30%Z)))
    with token_reply.
  unfold token_reply. run.
  cbn [Z.leb Z.ltb Z.compare Pos.compare Pos.compare_cont andb
       Py.get Py.lookup String.eqb Ascii.eqb Bool.eqb truthy negb]. run.
  change [bearer repr (VStr "tok"); ("Content-Type", "application/json")]
    with tok_hdrs.
  subst email. change (base ++ "@" ++ fmt_char (azure_domain cfg))
    with (candidate base domain 1).
  fold domain.
  rewrite (probe_exhausted _ tok_hdrs base domain 99); try lia.
  - unfold create_user. run.
    change (crowded _ (create_request tok_hdrs (Some name)
                         (candidate base domain 100)))
      with created_reply.
    unfold created_reply. run. cbn [Z.eqb Pos.eqb]. unfold set_emails. run.
    unfold with_emails, candidates.
    rewrite <- !List.app_assoc. reflexivity.
  - intros k hist _. apply crowded_lookup.
Qed.

Lemma create_azure_email_crowded_witness :
  _create_azure_email no_repr crowded techcarrot (lalith, world0)
  = (Ret tt,
     (with_emails lalith "lalith.kumar100@techcarrot.ae",
      mkWorld
        (token_request (Some "tenant") (Some "client") (Some "secret") (Some 30%Z)
         :: List.map (check_request tok_hdrs)
              (candidates "lalith.kumar" "techcarrot.ae" 99)
         ++ [create_request tok_hdrs (Some "Lalith Kumar")
               "lalith.kumar100@techcarrot.ae"])%list
        ((INFO, Processing "Lalith Kumar" "lalith.kumar@techcarrot.ae")
         :: exhausted_log "lalith.kumar" "techcarrot.ae" 1 99
         ++ [(INFO, Created "lalith.kumar100@techcarrot.ae")])%list)).
Proof.
  exact (create_azure_email_crowded no_repr techcarrot "Lalith Kumar"
           "lalith.kumar" "lalith.kumar@techcarrot.ae" lalith world0
           eq_refl eq_refl eq_refl).
Defined.

(** ** The shape of a run of [_create_azure_email] *)

Lemma probe_shape net hdrs base domain fuel :
  forall count ue st w,
  exists o ues lg,
    probe net fuel hdrs base domain count ue (st, w)
    = (o, (st, mkWorld (calls w ++ List.map (check_request hdrs) ues)%list lg)).
Proof.
  induction fuel as [|fuel IH]; intros count ue st w; cbn [probe].
  - exists (Raise OutOfFuel), [], (logs w). run. rewrite List.app_nil_r.
    now destruct w.
  - destruct (count <? 100)%nat.
    + run. destruct (net (calls w) (check_request hdrs ue)) as [|code content].
      * exists (Raise RequestException), [ue]. eexists. reflexivity.
      * run. destruct (code =? 404)%Z.
        { exists (Ret (Some ue)), [ue]. eexists. reflexivity. }
        destruct (code =? 200)%Z.
        { run.
          match goal with
          | |- context [probe _ _ _ _ _ ?c ?u (?s, ?w')] =>
              destruct (IH c u s w') as [o [ues [lg E]]]
          end.
          rewrite E. cbn [calls].
          exists o, (ue :: ues), lg. rewrite <- List.app_assoc. reflexivity. }
        exists (Ret None), [ue]. eexists. reflexivity.
    + exists (Ret (Some ue)), [], (logs w). run. rewrite List.app_nil_r.
      now destruct w.
Qed.

Lemma create_user_shape net hdrs nm ue st w :
  exists o lg,
    create_user net hdrs nm ue (st, w)
    = (o, (match net (calls w) (create_request hdrs nm ue) with
           | Response 201 (Some _) => with_emails st ue
           | _ => st
           end,
           mkWorld (calls w ++ [create_request hdrs nm ue])%list lg)).
Proof.
  unfold create_user. run.
  destruct (net (calls w) (create_request hdrs nm ue)) as [|code content].
  - do 2 eexists. reflexivity.
  - run. destruct (Z.eqb_spec code 201) as [->|Hc].
    + destruct content as [v|]; run.
      * unfold set_emails. run. do 2 eexists. reflexivity.
      * run. do 2 eexists. reflexivity.
    + replace (match code with
               | 201%Z => match content with
                          | Some _ => with_emails st ue
                          | None => st
                          end
               | _ => st
               end) with st.
      2:{ destruct code as [|p|p]; try reflexivity.
          do 8 (destruct p as [p|p|]; try reflexivity). congruence. }
      destruct content as [v|]; run; [|do 2 eexists; reflexivity].
      destruct (Py.get v "error" (VDict [])) as [err|e]; run;
        [|do 2 eexists; reflexivity].
      destruct (Py.get err "message" (VStr "Unknown error")) as [m|e]; run;
        do 2 eexists; reflexivity.
Qed.

Lemma create_azure_email_shape repr net cfg st w :
  let r := _create_azure_email repr net cfg (st, w) in
  fst r = Ret tt /\ run_shape net cfg st w (snd r).
Proof.
  destruct st as [[nm uid em wm] dep].
  unfold _create_azure_email.
  destruct (all_set cfg); cbn [negb]; run;
    [|split; [reflexivity|apply shape_quiet]].
  cbn [Employee.name].
  destruct nm as [n|]; run; [|split; [reflexivity|apply shape_quiet]].
  destruct (derive n _) as [[base email]|e]; run;
    [|split; [reflexivity|apply shape_quiet]].
  set (tq := token_request _ _ _ _).
  set (st := mkStore (Employee.mk (Some n) uid em wm) dep).
  assert (forall lg, run_shape net cfg st w (st, mkWorld (calls w ++ [tq])%list lg))
    as Htoken by (intros lg; apply (shape_probed net cfg st w [] [])).
  destruct (net (calls w) tq) as [|code content]; run;
    [split; [reflexivity|apply Htoken]|].
  destruct ((400 <=? code) && (code <? 600))%Z; run;
    [split; [reflexivity|apply Htoken]|].
  destruct content as [j|]; run; [|split; [reflexivity|apply Htoken]].
  destruct (Py.get j "access_token" VNone) as [token|e]; run;
    [|split; [reflexivity|apply Htoken]].
  destruct (truthy token); cbn [negb]; run;
    [|split; [reflexivity|apply Htoken]].
  clear Htoken.
  set (hdrs := [bearer repr token; ("Content-Type", "application/json")]).
  match goal with
  | |- context [probe ?n ?f ?h ?b ?d ?c ?u (?s, ?w')] =>
      destruct (probe_shape n h b d f c u s w') as [o [ues [lg E]]]; rewrite E
  end.
  cbn [calls]. rewrite <- List.app_assoc. cbn [List.app].
  destruct o as [[unique|]|e]; run;
    [|split; [reflexivity|apply shape_probed]
     |split; [reflexivity|apply shape_probed]].
  match goal with
  | |- context [create_user ?n ?h ?nm ?u (?s, ?w')] =>
      destruct (create_user_shape n h nm u s w') as [o [lg' E']]; rewrite E'
  end.
  cbn [calls]. rewrite <- List.app_assoc. cbn [List.app].
  destruct o as [[]|e]; cbn [fst snd calls logs];
    (split; [reflexivity|]);
    apply (shape_created net cfg st w hdrs ues unique).
Qed.

(** [_create_azure_email] never writes [azure_user_id]. *)
Lemma create_azure_email_keeps_user_id repr net cfg st w :
  Employee.azure_user_id (self (fst (snd (_create_azure_email repr net cfg (st, w)))))
  = Employee.azure_user_id (self st).
Proof.
  destruct (create_azure_email_shape repr net cfg st w) as [_ H].
  revert H. generalize (snd (_create_azure_email repr net cfg (st, w))).
  intros s H. destruct H as [lg|hdrs ues lg|hdrs ues ue lg pre q];
    try reflexivity.
  cbn [fst]. destruct (net _ q) as [|code [v|]]; try reflexivity.
  all: destruct code as [|p|p]; try reflexivity.
  all: do 8 (destruct p as [p|p|]; try reflexivity).
Qed.

(** C2 (the code departs from it).  No run of [_create_azure_email] writes
    [azure_user_id]; after a creation answered 201 the record carries the
    address in [azure_email] while [azure_user_id] is still unset, and
    [create] therefore does not go on to [_add_to_dept_dl] for a record
    that came without an account reference. *)
Theorem create_sets_email_without_user_id :
  (forall repr net cfg st w,
      Employee.azure_user_id
        (self (fst (snd (_create_azure_email repr net cfg (st, w)))))
      = Employee.azure_user_id (self st))
  /\
  (let st := mkStore (Employee.mk (Some "Lalith Kumar") None None None)
               (Some sales) in
   let r := create no_repr (directory []) no_create_dl techcarrot (st, world0) in
   fst r = Ret tt
   /\ Employee.azure_email (self (fst (snd r)))
      = Some "lalith.kumar@techcarrot.ae"
   /\ Employee.azure_user_id (self (fst (snd r))) = None
   /\ calls (snd (snd r))
      = [ token_request (Some "tenant") (Some "client") (Some "secret")
            (Some 30%Z);
          check_request tok_hdrs "lalith.kumar@techcarrot.ae";
          create_request tok_hdrs (Some "Lalith Kumar")
            "lalith.kumar@techcarrot.ae" ]).
Proof.
  split; [exact create_azure_email_keeps_user_id|].
  vm_compute. repeat split; reflexivity.
Qed.

Lemma is_create_check hdrs ues :
  List.Forall (fun q => is_create q = false) (List.map (check_request hdrs) ues).
Proof. induction ues; constructor; [reflexivity | assumption]. Qed.

Lemma not_create_last (X pre : list request) (q : request) :
  List.Forall (fun q => is_create q = false) X ->
  is_create q = true -> X <> (pre ++ [q])%list.
Proof.
  intros HX Hq E. subst X. apply List.Forall_app in HX. destruct HX as [_ HX].
  inversion HX; subst. congruence.
Qed.

(** C10.  When the creation call of a run is answered 201 with the created
    resource, the record the run leaves is the one it started from with
    [azure_email] and [work_email] set to the address of that call, and
    nothing else changed. *)
Theorem create_azure_email_writes_both repr net cfg st w pre hdrs name ue v :
  let r := _create_azure_email repr net cfg (st, w) in
  calls (snd (snd r)) = (calls w ++ pre ++ [create_request hdrs name ue])%list ->
  net (calls w ++ pre)%list (create_request hdrs name ue) = Response 201 (Some v) ->
  fst (snd r) = with_emails st ue.
Proof.
  intros r Hcalls Hreply.
  destruct (create_azure_email_shape repr net cfg st w) as [_ H]. fold r in H.
  inversion H as [lg E|hdrs' ues lg E|hdrs' ues ue' lg pre' q E];
    rewrite <- E in Hcalls; cbn [snd calls] in Hcalls.
  - exfalso. rewrite <- (List.app_nil_r (calls w)) in Hcalls at 1.
    apply List.app_inv_head in Hcalls. symmetry in Hcalls.
    now apply List.app_eq_nil in Hcalls.
  - exfalso. apply List.app_inv_head in Hcalls. revert Hcalls.
    apply not_create_last; [|reflexivity].
    constructor; [reflexivity | apply is_create_check].
  - apply List.app_inv_head in Hcalls.
    apply (List.app_inj_tail (_ :: _) pre) in Hcalls.
    destruct Hcalls as [Hpre Hq].
    cbn [fst]. fold pre' in Hpre. rewrite Hpre, Hq, Hreply.
    unfold q in Hq. injection Hq as _ _ Hue. now subst.
Qed.

Lemma create_azure_email_writes_both_witness :
  let r := _create_azure_email no_repr (directory []) techcarrot (lalith, world0) in
  fst (snd r) = with_emails lalith "lalith.kumar@techcarrot.ae".
Proof.
  apply (create_azure_email_writes_both no_repr (directory []) techcarrot
           lalith world0
           [ token_request (Some "tenant") (Some "client") (Some "secret")
               (Some 30%Z);
             check_request tok_hdrs "lalith.kumar@techcarrot.ae" ]
           tok_hdrs (Some "Lalith Kumar") "lalith.kumar@techcarrot.ae"
           (VDict [("id", VStr "u-1")])).
  - reflexivity.
  - reflexivity.
Defined.

(** ** Adding the employee to the list of the department *)

Lemma add_member_total repr net cfg e dept st w :
  exists w', add_member repr net cfg e dept (st, w) = (Ret tt, (st, w')).
Proof.
  unfold add_member. run.
  destruct (net (calls w) _) as [|tc content]; run; [eexists; reflexivity|].
  destruct content as [j|]; run; [|eexists; reflexivity].
  destruct (Py.get j "access_token" VNone) as [token|x]; run;
    [|eexists; reflexivity].
  destruct (net _ _) as [|code content]; run; [eexists; reflexivity|].
  destruct (code =? 204)%Z; [eexists; reflexivity|].
  destruct (code =? 400)%Z; eexists; reflexivity.
Qed.

Lemma add_member_status repr net cfg e dept st w tc j token code content :
  let tq := token_request (azure_tenant_id cfg) (azure_client_id cfg)
              (azure_client_secret cfg) None in
  let mq := member_request [bearer repr token; ("Content-Type", "application/json")]
              (Department.azure_dl_id dept) (Employee.azure_user_id e) in
  net (calls w) tq = Response tc (Some j) ->
  Py.get j "access_token" VNone = Ret token ->
  net (calls w ++ [tq])%list mq = Response code content ->
  add_member repr net cfg e dept (st, w)
  = (Ret tt, (st, mkWorld (calls w ++ [tq; mq])%list
                          (logs w ++ [add_log e dept code])%list)).
Proof.
  intros tq mq Ht Hj Hm. unfold add_member. run.
  fold tq. rewrite Ht. run. rewrite Hj. run. fold mq. rewrite Hm. run.
  unfold add_log. rewrite <- List.app_assoc. cbn [List.app].
  destruct (code =? 204)%Z; [reflexivity|].
  destruct (code =? 400)%Z; reflexivity.
Qed.

Lemma add_to_dept_dl_linked repr net create_dl cfg st w dept :
  department_id st = Some dept ->
  truthy_char (Department.azure_dl_id dept) = true ->
  truthy_char (Employee.azure_user_id (self st)) = true ->
  _add_to_dept_dl repr net create_dl cfg (st, w)
  = add_member repr net cfg (self st) dept (st, w).
Proof.
  intros Hd Hdl Hu. unfold _add_to_dept_dl. run.
  rewrite Hd, Hu. cbn [negb]. rewrite Hdl. cbn [negb]. run.
  rewrite Hd, Hdl. reflexivity.
Qed.

(** C6.  For an employee with an account in a department that is linked,
    [_add_to_dept_dl] returns normally whatever the token endpoint and the
    directory answer, and leaves the records as they were; when the append
    is answered, a 204 is logged as added, a 400 as already a member, both
    at level INFO, and any other status as an error, and nothing is
    raised. *)
Theorem add_to_dept_dl_never_raises repr net create_dl cfg st w dept :
  department_id st = Some dept ->
  truthy_char (Department.azure_dl_id dept) = true ->
  truthy_char (Employee.azure_user_id (self st)) = true ->
  let r := _add_to_dept_dl repr net create_dl cfg (st, w) in
  fst r = Ret tt
  /\ fst (snd r) = st
  /\ forall tc j token code content,
       let tq := token_request (azure_tenant_id cfg) (azure_client_id cfg)
                   (azure_client_secret cfg) None in
       let mq := member_request
                   [bearer repr token; ("Content-Type", "application/json")]
                   (Department.azure_dl_id dept)
                   (Employee.azure_user_id (self st)) in
       net (calls w) tq = Response tc (Some j) ->
       Py.get j "access_token" VNone = Ret token ->
       net (calls w ++ [tq])%list mq = Response code content ->
       snd (snd r) = mkWorld (calls w ++ [tq; mq])%list
                             (logs w ++ [add_log (self st) dept code])%list.
Proof.
  intros Hd Hdl Hu r. unfold r.
  rewrite (add_to_dept_dl_linked repr net create_dl cfg st w dept Hd Hdl Hu).
  destruct (add_member_total repr net cfg (self st) dept st w) as [w' E].
  split; [now rewrite E|]. split; [now rewrite E|].
  intros tc j token code content. cbv zeta. intros Ht Hj Hm.
  now rewrite (add_member_status repr net cfg (self st) dept st w
                 tc j token code content Ht Hj Hm).
Qed.

Lemma add_to_dept_dl_never_raises_witness :
  let first :=
    _add_to_dept_dl no_repr group_members no_create_dl techcarrot
      (kumar_in_sales, world0) in
  let second :=
    _add_to_dept_dl no_repr group_members no_create_dl techcarrot
      (kumar_in_sales, snd (snd first)) in
  fst second = Ret tt
  /\ fst (snd second) = kumar_in_sales
  /\ logs (snd (snd second))
     = [ (INFO, AddedToDl "Lalith Kumar" "DL_Sales@techcarrot.ae");
         (INFO, AlreadyInDl "Lalith Kumar" "DL_Sales@techcarrot.ae") ].
Proof.
  intros first second.
  destruct (add_to_dept_dl_never_raises no_repr group_members no_create_dl
              techcarrot kumar_in_sales (snd (snd first)) sales
              eq_refl eq_refl eq_refl) as [H1 [H2 H3]].
  split; [exact H1|]. split; [exact H2|].
  exact (f_equal logs
           (H3 200%Z (VDict [("access_token", VStr "tok")]) (VStr "tok") 400%Z
               (Some (VDict [("error", VDict [])])) eq_refl eq_refl eq_refl)).
Defined.

(** ** The four system parameters *)

Lemma all_set_false_iff (cfg : config) :
  all_set cfg = false
  <-> truthy_char (azure_tenant_id cfg) = false
      \/ truthy_char (azure_client_id cfg) = false
      \/ truthy_char (azure_client_secret cfg) = false
      \/ truthy_char (azure_domain cfg) = false.
Proof.
  unfold all_set.
  destruct (truthy_char (azure_tenant_id cfg)),
           (truthy_char (azure_client_id cfg)),
           (truthy_char (azure_client_secret cfg)),
           (truthy_char (azure_domain cfg)); cbn; intuition congruence.
Qed.

(** [_create_azure_email] checks the four parameters before any call. *)
Lemma create_azure_email_without_credentials repr net cfg st w :
  all_set cfg = false ->
  _create_azure_email repr net cfg (st, w)
  = (Ret tt,
     (st, mkWorld (calls w) (logs w ++ [(ERROR, CredentialsMissing)])%list)).
Proof. intros H. unfold _create_azure_email. rewrite H. reflexivity. Qed.

(** [action_sync_dl_from_azure] checks them as well. *)
Lemma sync_without_credentials repr net cfg d w :
  all_set cfg = false ->
  action_sync_dl_from_azure repr net cfg (d, w)
  = (Ret (Some CredentialsNotice),
     (d, mkWorld (calls w) (logs w ++ [(ERROR, DeptCredentialsMissing)])%list)).
Proof. intros H. unfold action_sync_dl_from_azure. rewrite H. reflexivity. Qed.

(** Whatever the parameters are, [_add_to_dept_dl] starts with the token
    request, and none of its calls has a timeout. *)
Lemma add_member_calls repr net cfg e dept st w :
  exists rest lg,
    add_member repr net cfg e dept (st, w)
    = (Ret tt,
       (st, mkWorld
              (calls w
               ++ token_request (azure_tenant_id cfg) (azure_client_id cfg)
                    (azure_client_secret cfg) None :: rest)%list lg))
    /\ List.Forall (fun q => timeout q = None) rest.
Proof.
  unfold add_member. run.
  destruct (net (calls w) _) as [|tc content]; run;
    [exists []; eexists; split; [reflexivity|constructor]|].
  destruct content as [j|]; run;
    [|exists []; eexists; split; [reflexivity|constructor]].
  destruct (Py.get j "access_token" VNone) as [token|x]; run;
    [|exists []; eexists; split; [reflexivity|constructor]].
  rewrite <- !List.app_assoc. cbn [List.app].
  destruct (net _ _) as [|code content]; run;
    [eexists [_]; eexists; split; [reflexivity|repeat constructor]|].
  destruct (code =? 204)%Z;
    [eexists [_]; eexists; split; [reflexivity|repeat constructor]|].
  destruct (code =? 400)%Z;
    eexists [_]; eexists; (split; [reflexivity|repeat constructor]).
Qed.

(** C7 (the code departs from it).  When one of the four parameters is
    not set, [_add_to_dept_dl] for an employee with an account in a linked
    department does not stop with a credentials error: its first step is
    the post to the token endpoint, made from the parameters as they
    are. *)
Theorem add_to_dept_dl_without_credentials repr net create_dl cfg st w dept :
  all_set cfg = false ->
  department_id st = Some dept ->
  truthy_char (Department.azure_dl_id dept) = true ->
  truthy_char (Employee.azure_user_id (self st)) = true ->
  exists rest lg,
    _add_to_dept_dl repr net create_dl cfg (st, w)
    = (Ret tt,
       (st, mkWorld
              (calls w
               ++ token_request (azure_tenant_id cfg) (azure_client_id cfg)
                    (azure_client_secret cfg) None :: rest)%list lg)).
Proof.
  intros _ Hd Hdl Hu.
  rewrite (add_to_dept_dl_linked repr net create_dl cfg st w dept Hd Hdl Hu).
  destruct (add_member_calls repr net cfg (self st) dept st w)
    as [rest [lg [E _]]].
  exists rest, lg. exact E.
Qed.

Lemma add_to_dept_dl_without_credentials_witness :
  exists rest lg,
    _add_to_dept_dl no_repr group_members no_create_dl no_config
      (kumar_in_sales, world0)
    = (Ret tt,
       (kumar_in_sales,
        mkWorld (token_request None None None None :: rest) lg)).
Proof.
  exact (add_to_dept_dl_without_credentials no_repr group_members no_create_dl
           no_config kumar_in_sales world0 sales
           eq_refl eq_refl eq_refl eq_refl).
Defined.

(** The run with no parameter set: the token endpoint of the tenant
    "False" is called, then the member is appended. *)
Example add_to_dept_dl_no_config_run :
  _add_to_dept_dl no_repr group_members no_create_dl no_config
    (kumar_in_sales, world0)
  = (Ret tt,
     (kumar_in_sales,
      mkWorld
        [ mkRequest POST
            "https://login.microsoftonline.com/False/oauth2/v2.0/token" []
            (FormData [ ("grant_type", Some "client_credentials");
                        ("client_id", None);
                        ("client_secret", None);
                        ("scope", Some "https://graph.microsoft.com/.default") ])
            None;
          member_request tok_hdrs (Some "g-1") (Some "u-1") ]
        [ (INFO, AddedToDl "Lalith Kumar" "DL_Sales@techcarrot.ae") ])).
Proof. reflexivity. Qed.

(** ** Timeouts *)

(** Every call of [_create_azure_email] carries [timeout=30]. *)
Lemma create_azure_email_timeouts repr net cfg st w :
  exists new,
    calls (snd (snd (_create_azure_email repr net cfg (st, w))))
    = (calls w ++ new)%list
    /\ List.Forall (fun q => timeout q = Some 30%Z) new.
Proof.
  assert (forall hdrs ues,
             List.Forall (fun q => timeout q = Some 30%Z)
               (List.map (check_request hdrs) ues)) as Hchecks.
  { intros hdrs ues. induction ues; constructor; [reflexivity|assumption]. }
  destruct (create_azure_email_shape repr net cfg st w) as [_ H].
  revert H. generalize (snd (_create_azure_email repr net cfg (st, w))).
  intros s H. destruct H as [lg|hdrs ues lg|hdrs ues ue lg pre q]; cbn [snd calls].
  - exists []. rewrite List.app_nil_r. split; [reflexivity|constructor].
  - eexists. split; [reflexivity|]. constructor; [reflexivity|apply Hchecks].
  - exists (pre ++ [q])%list. split; [reflexivity|].
    apply List.Forall_app. split.
    + constructor; [reflexivity|apply Hchecks].
    + constructor; [reflexivity|constructor].
Qed.

(** C8 (the code departs from it).  The calls of [_add_to_dept_dl], the
    token request and the append of the member, are made without a
    timeout: a run for an employee with an account in a linked department
    makes at least one call, and none of its calls has one. *)
Theorem add_to_dept_dl_calls_without_timeout repr net create_dl cfg st w dept :
  department_id st = Some dept ->
  truthy_char (Department.azure_dl_id dept) = true ->
  truthy_char (Employee.azure_user_id (self st)) = true ->
  exists new,
    calls (snd (snd (_add_to_dept_dl repr net create_dl cfg (st, w))))
    = (calls w ++ new)%list
    /\ new <> []
    /\ List.Forall (fun q => timeout q = None) new.
Proof.
  intros Hd Hdl Hu.
  rewrite (add_to_dept_dl_linked repr net create_dl cfg st w dept Hd Hdl Hu).
  destruct (add_member_calls repr net cfg (self st) dept st w)
    as [rest [lg [E H]]].
  rewrite E. eexists. split; [reflexivity|]. split; [discriminate|].
  constructor; [reflexivity|exact H].
Qed.

Lemma add_to_dept_dl_calls_without_timeout_witness :
  exists new,
    calls (snd (snd (_add_to_dept_dl no_repr group_members no_create_dl
                       techcarrot (kumar_in_sales, world0))))
    = new
    /\ new <> []
    /\ List.Forall (fun q => timeout q = None) new.
Proof.
  exact (add_to_dept_dl_calls_without_timeout no_repr group_members
           no_create_dl techcarrot kumar_in_sales world0 sales
           eq_refl eq_refl eq_refl).
Defined.

Example add_to_dept_dl_run :
  let r := _add_to_dept_dl no_repr group_members no_create_dl techcarrot
             (kumar_in_sales, world0) in
  calls (snd (snd r))
  = [ token_request (Some "tenant") (Some "client") (Some "secret") None;
      member_request tok_hdrs (Some "g-1") (Some "u-1") ]
  /\ List.map timeout (calls (snd (snd r))) = [None; None].
Proof. split; reflexivity. Qed.

(** ** Finding the list of a department *)

Lemma search_run net hdrs e groups d w :
  search net hdrs e groups (d, w)
  = (search_result (net (calls w) (search_request hdrs e)) groups,
     (d, mkWorld (calls w ++ [search_request hdrs e])%list (logs w))).
Proof.
  unfold search, search_result. run.
  destruct (net (calls w) _) as [|code content]; run; [reflexivity|].
  destruct (code =? 200)%Z; run; [|reflexivity].
  destruct content as [j|]; run; [|reflexivity].
  destruct (Py.get j "value" (VList [])); reflexivity.
Qed.

Lemma no_match_search_result r :
  no_match r = match search_result r (VList []) with
               | Ret groups => negb (truthy groups)
               | Raise _ => false
               end.
Proof.
  destruct r as [|code content]; [reflexivity|]. unfold no_match, search_result.
  destruct (code =? 200)%Z; [|reflexivity].
  destruct content as [j|]; [|reflexivity].
  destruct (Py.get j "value" (VList [])); reflexivity.
Qed.

Lemma link_first_shape repr name upper lower domain groups d w :
  exists o lg d',
    link_first repr name upper lower domain groups (d, w)
    = (o, (d', mkWorld (calls w) lg))
    /\ (d' = d
        \/ exists mail id,
             d' = Department.mk (Department.name d)
                    (to_char repr mail) (to_char repr id)
             /\ o = Ret (Some (LinkedNotice mail))).
Proof.
  destruct w as [cs ls].
  unfold link_first. destruct (truthy groups); run.
  2:{ do 3 eexists. split; [reflexivity|now left]. }
  destruct (item0 groups) as [grp|e]; run.
  2:{ do 3 eexists. split; [reflexivity|now left]. }
  destruct (Py.get grp "mail" VNone) as [mail|e]; run.
  2:{ do 3 eexists. split; [reflexivity|now left]. }
  destruct (Py.get grp "id" VNone) as [id|e]; run.
  2:{ do 3 eexists. split; [reflexivity|now left]. }
  unfold write_link. run. do 3 eexists. split; [reflexivity|].
  right. exists mail, id. split; reflexivity.
Qed.

Lemma link_first_hit repr name upper lower domain grp rest mail id d w :
  Py.get grp "mail" VNone = Ret mail ->
  Py.get grp "id" VNone = Ret id ->
  link_first repr name upper lower domain (VList (grp :: rest)) (d, w)
  = (Ret (Some (LinkedNotice mail)),
     (Department.mk (Department.name d) (to_char repr mail) (to_char repr id),
      mkWorld (calls w) (logs w ++ [(INFO, Linked name (str repr mail))])%list)).
Proof.
  intros Hm Hi. unfold link_first. cbn [truthy item0]. run.
  rewrite Hm. run. rewrite Hi. run. unfold write_link. run. reflexivity.
Qed.

Section Sync.
Variables (repr : value -> string) (net : network) (cfg : config).
Variables (d : Department.t) (w : world) (n : string) (token : value).

Local Abbreviation tq := (sync_token cfg).
Local Abbreviation domain := (fmt_char (azure_domain cfg)).
Local Abbreviation up := (upper_search repr cfg token n).
Local Abbreviation lo := (lower_search repr cfg token n).
Local Abbreviation r := (action_sync_dl_from_azure repr net cfg (d, w)).

Hypothesis Hall : all_set cfg = true.
Hypothesis Hname : Department.name d = Some n.
Hypothesis Htoken :
  exists code j,
    net (calls w) tq = Response code (Some j)
    /\ Py.get j "access_token" VNone = Ret token
    /\ truthy token = true.

Lemma sync_calls :
  calls (snd (snd r))
  = (calls w ++ tq :: up
     :: (if no_match (net (calls w ++ [tq])%list up)
            && negb (dept_name_upper n =? dept_name_lower n)
         then [lo] else []))%list.
Proof.
  destruct Htoken as [code [j [Ht [Hj Htr]]]].
  unfold r, action_sync_dl_from_azure. rewrite Hall. cbn [negb]. run.
  fold tq. rewrite Ht. run. rewrite Hj. run. rewrite Htr. cbn [negb]. run.
  rewrite Hname. run. fold domain.
  rewrite search_run. cbn [calls logs]. fold up.
  rewrite no_match_search_result.
  destruct (search_result _ _) as [g1|e]; run.
  2:{ rewrite <- List.app_assoc. reflexivity. }
  destruct (negb (truthy g1) && negb (dept_name_upper n =? dept_name_lower n)); run.
  - rewrite search_run. cbn [calls logs]. fold lo.
    destruct (search_result _ _) as [g2|e]; run.
    2:{ rewrite <- !List.app_assoc. reflexivity. }
    match goal with
    | |- context [link_first ?a ?b ?c ?e ?f ?g (?x, ?y)] =>
        destruct (link_first_shape a b c e f g x y) as [o [lg [d' [E _]]]];
        rewrite E
    end.
    destruct o; cbn [fst snd calls]; rewrite <- !List.app_assoc; reflexivity.
  - match goal with
    | |- context [link_first ?a ?b ?c ?e ?f ?g (?x, ?y)] =>
        destruct (link_first_shape a b c e f g x y) as [o [lg [d' [E _]]]];
        rewrite E
    end.
    destruct o; cbn [fst snd calls]; rewrite <- !List.app_assoc; reflexivity.
Qed.

Lemma sync_lower_hit code2 j2 grp rest mail id :
  dept_name_upper n <> dept_name_lower n ->
  no_match (net (calls w ++ [tq])%list up) = true ->
  net (calls w ++ [tq; up])%list lo = Response code2 (Some j2) ->
  code2 = 200%Z ->
  Py.get j2 "value" (VList []) = Ret (VList (grp :: rest)) ->
  Py.get grp "mail" VNone = Ret mail ->
  Py.get grp "id" VNone = Ret id ->
  fst r = Ret (Some (LinkedNotice mail))
  /\ fst (snd r)
     = Department.mk (Department.name d) (to_char repr mail) (to_char repr id).
Proof.
  intros Hdiff Hno H2 -> Hv Hm Hi.
  destruct Htoken as [code [j [Ht [Hj Htr]]]].
  unfold r, action_sync_dl_from_azure. rewrite Hall. cbn [negb]. run.
  fold tq. rewrite Ht. run. rewrite Hj. run. rewrite Htr. cbn [negb]. run.
  rewrite Hname. run. fold domain.
  rewrite search_run. cbn [calls logs]. fold up.
  rewrite no_match_search_result in Hno.
  destruct (search_result _ _) as [g1|e]; [|discriminate]. run.
  rewrite Hno. apply String.eqb_neq in Hdiff. rewrite Hdiff. cbn [negb andb]. run.
  rewrite search_run. cbn [calls logs]. fold lo.
  rewrite <- List.app_assoc. cbn [List.app]. rewrite H2.
  cbn [search_result Z.eqb Pos.eqb]. rewrite Hv. run.
  rewrite (link_first_hit repr _ _ _ _ grp rest mail id _ _ Hm Hi).
  cbn [fst snd]. rewrite Hname. split; reflexivity.
Qed.

(** C5.  Once the token is granted, the first search is for the upper
  form [DL_{upper}@{domain}]; the lower form is searched exactly when the
  first search answers with no group and the two forms differ.  So equal
  forms give one search whatever it finds, and when only the lower form
  exists and the forms differ there are two searches, upper then lower,
  and the department is linked to the group the second one found. *)
Theorem sync_searches_upper_then_lower :
  let first := net (calls w ++ [tq])%list up in
  calls (snd (snd r))
  = (calls w ++ tq :: up
     :: (if no_match first && negb (dept_name_upper n =? dept_name_lower n)
         then [lo] else []))%list
  /\ (dept_name_upper n = dept_name_lower n ->
      calls (snd (snd r)) = (calls w ++ [tq; up])%list)
  /\ (dept_name_upper n <> dept_name_lower n ->
      no_match first = true ->
      forall j2 grp rest mail id,
        net (calls w ++ [tq; up])%list lo = Response 200 (Some j2) ->
        Py.get j2 "value" (VList []) = Ret (VList (grp :: rest)) ->
        Py.get grp "mail" VNone = Ret mail ->
        Py.get grp "id" VNone = Ret id ->
        calls (snd (snd r)) = (calls w ++ [tq; up; lo])%list
        /\ fst r = Ret (Some (LinkedNotice mail))
        /\ fst (snd r)
           = Department.mk (Department.name d)
               (to_char repr mail) (to_char repr id)).
Proof.
  intros first. split; [exact sync_calls|]. split.
  - intros E. rewrite sync_calls, E, String.eqb_refl, andb_false_r.
    reflexivity.
  - intros Hdiff Hno j2 grp rest mail id H2 Hv Hm Hi. split.
    + rewrite sync_calls. fold first. rewrite Hno.
      apply String.eqb_neq in Hdiff. rewrite Hdiff. reflexivity.
    + exact (sync_lower_hit 200%Z j2 grp rest mail id Hdiff Hno H2 eq_refl
               Hv Hm Hi).
Qed.
End Sync.

(** Every call of [action_sync_dl_from_azure] carries [timeout=30]. *)
Lemma sync_timeouts repr net cfg d w :
  exists new,
    calls (snd (snd (action_sync_dl_from_azure repr net cfg (d, w))))
    = (calls w ++ new)%list
    /\ List.Forall (fun q => timeout q = Some 30%Z) new.
Proof.
  assert (forall new : list request,
             new = [] -> (calls w ++ new)%list = calls w) as Hnil
      by (intros new ->; apply List.app_nil_r).
  unfold action_sync_dl_from_azure.
  destruct (all_set cfg); cbn [negb]; run;
    [|exists []; split; [now rewrite Hnil|constructor]].
  set (tq := token_request _ _ _ _).
  destruct (net (calls w) tq) as [|code content]; run;
    [exists [tq]; split; [reflexivity|repeat constructor]|].
  destruct content as [j|]; run;
    [|exists [tq]; split; [reflexivity|repeat constructor]].
  destruct (Py.get j "access_token" VNone) as [token|e]; run;
    [|exists [tq]; split; [reflexivity|repeat constructor]].
  destruct (truthy token); cbn [negb]; run;
    [|exists [tq]; split; [reflexivity|repeat constructor]].
  destruct (Department.name d) as [n|]; run;
    [|exists [tq]; split; [reflexivity|repeat constructor]].
  rewrite search_run. cbn [calls logs].
  set (up := search_request _ _).
  destruct (search_result _ _) as [g1|e]; run;
    [|exists [tq; up]; split;
       [rewrite <- List.app_assoc; reflexivity|repeat constructor]].
  destruct (negb (truthy g1) && negb (dept_name_upper n =? dept_name_lower n)); run.
  - rewrite search_run. cbn [calls logs].
    set (lo := search_request _ _).
    exists [tq; up; lo].
    split; [|repeat constructor].
    destruct (search_result _ _) as [g2|e]; run;
      [|rewrite <- !List.app_assoc; reflexivity].
    match goal with
    | |- context [link_first ?a ?b ?c ?e ?f ?g (?x, ?y)] =>
        destruct (link_first_shape a b c e f g x y) as [o [lg [d' [E _]]]];
        rewrite E
    end.
    destruct o; cbn [fst snd calls]; rewrite <- !List.app_assoc; reflexivity.
  - exists [tq; up]. split; [|repeat constructor].
    match goal with
    | |- context [link_first ?a ?b ?c ?e ?f ?g (?x, ?y)] =>
        destruct (link_first_shape a b c e f g x y) as [o [lg [d' [E _]]]];
        rewrite E
    end.
    destruct o; cbn [fst snd calls]; rewrite <- !List.app_assoc; reflexivity.
Qed.

(** A sync leaves the department as it was, or writes both link fields
    from one group. *)
Lemma sync_dept repr net cfg d w :
  let r := action_sync_dl_from_azure repr net cfg (d, w) in
  fst (snd r) = d
  \/ exists mail id,
       fst (snd r) = Department.mk (Department.name d)
                       (to_char repr mail) (to_char repr id)
       /\ fst r = Ret (Some (LinkedNotice mail)).
Proof.
  unfold action_sync_dl_from_azure.
  destruct (all_set cfg); cbn [negb]; run; [|now left].
  destruct (net (calls w) _) as [|code content]; run; [now left|].
  destruct content as [j|]; run; [|now left].
  destruct (Py.get j "access_token" VNone) as [token|e]; run; [|now left].
  destruct (truthy token); cbn [negb]; run; [|now left].
  destruct (Department.name d) as [n|] eqn:En; run; [|now left].
  rewrite search_run. cbn [calls logs].
  destruct (search_result _ _) as [g1|e]; run; [|now left].
  assert (forall g w',
    let r := (let (o, s') := link_first repr n (dept_name_upper n) (dept_name_lower n)
                 (fmt_char (azure_domain cfg)) g (d, w') in
              match o with
              | Ret a => (Ret a, s')
              | Raise e => (Ret (Some (ErrorNotice e)),
                  (fst s', mkWorld (calls (snd s'))
                             (logs (snd s') ++ [(ERROR, DeptError e)])%list))
              end) in
    fst (snd r) = d
    \/ exists mail id,
         fst (snd r) = Department.mk (Some n) (to_char repr mail) (to_char repr id)
         /\ fst r = Ret (Some (LinkedNotice mail))) as Hlink.
  { intros g w'.
    destruct (link_first_shape repr n (dept_name_upper n) (dept_name_lower n)
                (fmt_char (azure_domain cfg)) g d w') as [o [lg [d' [E Hd]]]].
    cbv zeta. rewrite E.
    destruct Hd as [->|[mail [id [-> ->]]]].
    - left. destruct o; reflexivity.
    - right. exists mail, id. rewrite En. split; reflexivity. }
  destruct (negb (truthy g1) && negb (dept_name_upper n =? dept_name_lower n)); run.
  - rewrite search_run. cbn [calls logs].
    destruct (search_result _ _) as [g2|e]; run; [|now left].
    apply Hlink.
  - apply Hlink.
Qed.

Lemma sync_searches_upper_then_lower_witness :
  let lower_only := group_directory [("DL_sales@techcarrot.ae", "g-7")] in
  let r := action_sync_dl_from_azure no_repr lower_only techcarrot
             (sales_unlinked, world0) in
  let r' := action_sync_dl_from_azure no_repr lower_only techcarrot
              (hr_unlinked, world0) in
  (calls (snd (snd r))
   = [ token_request (Some "tenant") (Some "client") (Some "secret") (Some 30%Z);
       search_request [("Authorization", "Bearer tok")] "DL_Sales@techcarrot.ae";
       search_request [("Authorization", "Bearer tok")] "DL_sales@techcarrot.ae" ]
   /\ fst r = Ret (Some (LinkedNotice (VStr "DL_sales@techcarrot.ae")))
   /\ fst (snd r)
      = Department.mk (Some "Sales") (Some "DL_sales@techcarrot.ae") (Some "g-7"))
  /\ calls (snd (snd r'))
     = [ token_request (Some "tenant") (Some "client") (Some "secret") (Some 30%Z);
         search_request [("Authorization", "Bearer tok")] "DL_hr@techcarrot.ae" ].
Proof.
  intros lower_only r r'.
  assert (exists code j,
             lower_only (calls world0)
               (token_request (azure_tenant_id techcarrot)
                  (azure_client_id techcarrot) (azure_client_secret techcarrot)
                  (Some 30%Z))
             = Response code (Some j)
             /\ Py.get j "access_token" VNone = Ret (VStr "tok")
             /\ truthy (VStr "tok") = true) as Htoken.
  { exists 200%Z, (VDict [("access_token", VStr "tok")]).
    repeat split; reflexivity. }
  split.
  - refine (proj2 (proj2 (sync_searches_upper_then_lower no_repr lower_only
              techcarrot sales_unlinked world0 "Sales" (VStr "tok")
              eq_refl eq_refl Htoken)) _ eq_refl
              (VDict [("value", VList [group "DL_sales@techcarrot.ae" "g-7"])])
              (group "DL_sales@techcarrot.ae" "g-7") []
              (VStr "DL_sales@techcarrot.ae") (VStr "g-7")
              eq_refl eq_refl eq_refl eq_refl).
    discriminate.
  - exact (proj1 (proj2 (sync_searches_upper_then_lower no_repr lower_only
              techcarrot hr_unlinked world0 "hr" (VStr "tok")
              eq_refl eq_refl Htoken)) eq_refl).
Defined.

(** ** The link of a department *)

(** A sync of a linked department whose search finds a group replaces the
    link. *)
Lemma not_link_set_once : ~ link_set_once.
Proof.
  intros H.
  specialize (H no_repr (group_directory [("DL_Sales@techcarrot.ae", "g-new")])
                techcarrot sales world0 eq_refl).
  vm_compute in H. discriminate H.
Qed.

Lemma add_to_dept_dl_keeps_link repr net create_dl cfg st w dept :
  department_id st = Some dept ->
  truthy_char (Department.azure_dl_id dept) = true ->
  fst (snd (_add_to_dept_dl repr net create_dl cfg (st, w))) = st.
Proof.
  intros Hd Hdl.
  destruct (truthy_char (Employee.azure_user_id (self st))) eqn:Hu.
  - rewrite (add_to_dept_dl_linked repr net create_dl cfg st w dept Hd Hdl Hu).
    destruct (add_member_total repr net cfg (self st) dept st w) as [w' E].
    now rewrite E.
  - unfold _add_to_dept_dl. run. rewrite Hd, Hu. reflexivity.
Qed.

Lemma create_azure_email_keeps_department repr net cfg st w :
  department_id (fst (snd (_create_azure_email repr net cfg (st, w))))
  = department_id st.
Proof.
  destruct (create_azure_email_shape repr net cfg st w) as [_ H].
  revert H. generalize (snd (_create_azure_email repr net cfg (st, w))).
  intros s H. destruct H as [lg|hdrs ues lg|hdrs ues ue lg pre q];
    try reflexivity.
  cbn [fst]. destruct (net _ q) as [|code [v|]]; try reflexivity.
  all: destruct code as [|p|p]; try reflexivity.
  all: do 8 (destruct p as [p|p|]; try reflexivity).
Qed.

(** ** The fuel of the probing loop is never used up *)

Lemma probe_fuel_suffices net hdrs base domain (fuel : nat) :
  forall count ue s,
    (100 - count < fuel)%nat ->
    fst (probe net fuel hdrs base domain count ue s) <> Raise OutOfFuel.
Proof.
  induction fuel as [|fuel IH]; intros count ue [st w] Hf; [lia|].
  cbn [probe]. destruct (Nat.ltb_spec count 100) as [Hc|Hc]; [|discriminate].
  run. destruct (net (calls w) _) as [|code content]; [discriminate|]. run.
  destruct (code =? 404)%Z; [discriminate|].
  destruct (code =? 200)%Z; [|discriminate].
  run. apply IH. lia.
Qed.

(** In [_create_azure_email] the loop starts with [count = 1] and a fuel of
    100. *)
Lemma probe_from_one_has_fuel net hdrs base domain ue s :
  fst (probe net 100 hdrs base domain 1 ue s) <> Raise OutOfFuel.
Proof. apply probe_fuel_suffices. lia. Qed.

(** * Further properties of the two models *)

(** ** The calls of one provisioning run *)

Lemma probe_lookups net hdrs base domain fuel :
  forall count st w,
    (1 <= count <= 100)%nat ->
    exists o n lg,
      probe net fuel hdrs base domain count (candidate base domain count) (st, w)
      = (o, (st, mkWorld
                   (calls w ++ List.map (check_request hdrs)
                      (List.map (candidate base domain) (List.seq count n)))%list
                   lg))
      /\ (n <= 100 - count)%nat
      /\ forall ue, o = Ret (Some ue) ->
           exists k, (count <= k <= 100)%nat /\ ue = candidate base domain k.
Proof.
  induction fuel as [|fuel IH]; intros count st w Hc; cbn [probe].
  - exists (Raise OutOfFuel), 0%nat, (logs w). run. cbn [List.seq List.map].
    rewrite List.app_nil_r. split; [now destruct w|]. split; [lia|discriminate].
  - destruct (Nat.ltb_spec count 100) as [Hlt|Hge].
    + run. destruct (net (calls w) _) as [|code content].
      * exists (Raise RequestException), 1%nat. eexists.
        split; [reflexivity|]. split; [lia|discriminate].
      * run. destruct (code =? 404)%Z.
        { exists (Ret (Some (candidate base domain count))), 1%nat. eexists.
          split; [reflexivity|]. split; [lia|].
          intros ue H. injection H as <-. exists count. split; [lia|reflexivity]. }
        destruct (code =? 200)%Z.
        { run. rewrite (candidate_suffixed base domain count (proj1 Hc)), Nat.add_1_r.
          match goal with
          | |- context [probe _ _ _ _ _ _ _ (?s, ?w')] =>
              destruct (IH (S count) s w' ltac:(lia)) as [o [n [lg [E [Hn Hk]]]]]
          end.
          rewrite E. cbn [calls].
          exists o, (S n), lg. split.
          - cbn [List.seq List.map]. rewrite <- List.app_assoc. reflexivity.
          - split; [lia|]. intros ue H. destruct (Hk ue H) as [k [Hk1 Hk2]].
            exists k. split; [lia|exact Hk2]. }
        exists (Ret None), 1%nat. eexists.
        split; [reflexivity|]. split; [lia|discriminate].
    + exists (Ret (Some (candidate base domain count))), 0%nat, (logs w). run.
      cbn [List.seq List.map]. rewrite List.app_nil_r.
      split; [now destruct w|]. split; [lia|].
      intros ue H. injection H as <-. exists count. split; [lia|reflexivity].
Qed.

Lemma create_azure_email_calls repr net cfg st w :
  let r := _create_azure_email repr net cfg (st, w) in
  let tq := token_request (azure_tenant_id cfg) (azure_client_id cfg)
              (azure_client_secret cfg) (Some 30%Z) in
  let domain := fmt_char (azure_domain cfg) in
  calls (snd (snd r)) = calls w
  \/ exists name hdrs base n rest,
       Employee.name (self st) = Some name
       /\ derive name domain = Ret (base, base ++ "@" ++ domain)
       /\ (n <= 99)%nat
       /\ calls (snd (snd r))
          = (calls w
             ++ tq :: List.map (check_request hdrs)
                        (List.map (candidate base domain) (List.seq 1 n))
             ++ rest)%list
       /\ (rest = []
           \/ exists k, (1 <= k <= 100)%nat
                /\ rest = [create_request hdrs (Some name)
                             (candidate base domain k)]).
Proof.
  destruct st as [[nm uid em wm] dep].
  unfold _create_azure_email.
  destruct (all_set cfg); cbn [negb]; run; [|now left].
  cbn [Employee.name].
  destruct nm as [name|]; run; [|now left].
  destruct (derive name _) as [[base email]|e] eqn:Hder; run; [|now left].
  pose proof (derive_email _ _ _ _ Hder) as He. subst email.
  set (tq := token_request _ _ _ _).
  set (domain := fmt_char (azure_domain cfg)).
  assert ((calls w ++ [tq])%list = calls w
          \/ exists name0 hdrs base n rest,
               Some name = Some name0
               /\ derive name0 domain = Ret (base, base ++ "@" ++ domain)
               /\ (n <= 99)%nat
               /\ (calls w ++ [tq])%list
                  = (calls w
                     ++ tq :: List.map (check_request hdrs)
                                (List.map (candidate base domain) (List.seq 1 n))
                     ++ rest)%list
               /\ (rest = []
                   \/ exists k, (1 <= k <= 100)%nat
                        /\ rest = [create_request hdrs (Some name0)
                                     (candidate base domain k)])) as Htoken.
  { right. exists name, [], base, 0%nat, []. split; [reflexivity|].
    split; [exact Hder|]. split; [lia|]. split; [reflexivity|now left]. }
  destruct (net (calls w) tq) as [|code content]; run; [exact Htoken|].
  destruct ((400 <=? code) && (code <? 600))%Z; run; [exact Htoken|].
  destruct content as [j|]; run; [|exact Htoken].
  destruct (Py.get j "access_token" VNone) as [token|e]; run; [|exact Htoken].
  destruct (truthy token); cbn [negb]; run; [|exact Htoken].
  clear Htoken.
  set (hdrs := [bearer repr token; ("Content-Type", "application/json")]).
  change (base ++ "@" ++ domain) with (candidate base domain 1).
  match goal with
  | |- context [probe ?nt ?f ?h ?b ?d ?c ?u (?s, ?w')] =>
      destruct (probe_lookups nt h b d f c s w' ltac:(lia))
        as [o [k [lg [E [Hk Hue]]]]]; rewrite E
  end.
  cbn [calls]. rewrite <- List.app_assoc. cbn [List.app].
  right. exists name, hdrs, base, k.
  destruct o as [[unique|]|e]; run.
  - destruct (Hue unique eq_refl) as [i [Hi ->]].
    match goal with
    | |- context [create_user ?nt ?h ?nm ?u (?s, ?w')] =>
        destruct (create_user_shape nt h nm u s w') as [o [lg' E']]; rewrite E'
    end.
    cbn [calls]. rewrite <- List.app_assoc. cbn [List.app].
    eexists. split; [reflexivity|]. split; [exact Hder|]. split; [lia|]. split.
    + destruct o; cbn [fst snd calls]; reflexivity.
    + right. exists i. split; [lia|reflexivity].
  - exists []. split; [reflexivity|]. split; [exact Hder|]. split; [lia|].
    rewrite List.app_nil_r. split; [reflexivity|now left].
  - exists []. split; [reflexivity|]. split; [exact Hder|]. split; [lia|].
    rewrite List.app_nil_r. split; [reflexivity|now left].
Qed.

Lemma looked_up_checks hdrs addrs :
  looked_up (List.map (check_request hdrs) addrs) = List.map check_url addrs.
Proof.
  induction addrs as [|a l IH]; [reflexivity|].
  cbn [List.map]. unfold looked_up in *. cbn [List.filter is_get meth check_request List.map url].
  now rewrite IH.
Qed.

Lemma looked_up_app qs qs' :
  looked_up (qs ++ qs') = (looked_up qs ++ looked_up qs')%list.
Proof. unfold looked_up. rewrite List.filter_app, List.map_app. reflexivity. Qed.

Lemma check_url_inj a b : check_url a = check_url b -> a = b.
Proof.
  unfold check_url. intros H.
  apply append_inv_head in H. now apply append_inv_head in H.
Qed.

Lemma NoDup_candidate_urls base domain n :
  List.NoDup (List.map check_url
                (List.map (candidate base domain) (List.seq 1 n))).
Proof.
  rewrite List.map_map. apply Injective_map_NoDup.
  - intros x y H. now apply check_url_inj, candidate_inj in H.
  - apply List.seq_NoDup.
Qed.

(** X1.  One run of [_create_azure_email] adds at most 101 calls to the
    history, of which at most 99 are lookups: one token request, one lookup
    per pass of the [while count < 100] loop, one creation call. *)
Theorem create_azure_email_call_bound repr net cfg st w :
  exists new,
    calls (snd (snd (_create_azure_email repr net cfg (st, w))))
    = (calls w ++ new)%list
    /\ (List.length new <= 101)%nat
    /\ (List.length (looked_up new) <= 99)%nat.
Proof.
  destruct (create_azure_email_calls repr net cfg st w)
    as [E | [name [hdrs [base [n [rest [_ [_ [Hn [E Hrest]]]]]]]]]];
    cbv zeta in E; rewrite E.
  - exists []. rewrite List.app_nil_r. cbn. split; [reflexivity|]. split; lia.
  - eexists. split; [reflexivity|].
    cbn [List.length]. unfold looked_up at 1. cbn [List.filter is_get meth token_request].
    fold (looked_up (List.map (check_request hdrs)
                       (List.map (candidate base (fmt_char (azure_domain cfg)))
                          (List.seq 1 n)) ++ rest)).
    rewrite looked_up_app, looked_up_checks, !List.length_app, !List.length_map,
      List.length_seq.
    destruct Hrest as [->|[k [_ ->]]]; cbn; lia.
Qed.

(** X2.  No run of [_create_azure_email] looks up the same address
    twice. *)
Theorem create_azure_email_lookups_differ repr net cfg st w :
  exists new,
    calls (snd (snd (_create_azure_email repr net cfg (st, w))))
    = (calls w ++ new)%list
    /\ List.NoDup (looked_up new).
Proof.
  destruct (create_azure_email_calls repr net cfg st w)
    as [E | [name [hdrs [base [n [rest [_ [_ [Hn [E Hrest]]]]]]]]]];
    cbv zeta in E; rewrite E.
  - exists []. rewrite List.app_nil_r. split; [reflexivity|constructor].
  - eexists. split; [reflexivity|].
    unfold looked_up at 1. cbn [List.filter is_get meth token_request].
    fold (looked_up (List.map (check_request hdrs)
                       (List.map (candidate base (fmt_char (azure_domain cfg)))
                          (List.seq 1 n)) ++ rest)).
    rewrite looked_up_app, looked_up_checks.
    destruct Hrest as [->|[k [_ ->]]]; cbn [looked_up List.filter List.map is_get
                                              meth create_request];
      rewrite List.app_nil_r; apply NoDup_candidate_urls.
Qed.

(** X3.  When a run of [_create_azure_email] ends with a creation call,
    the record has a name, the call carries that name, and the address it
    asks for is one of the first 100 candidates of the base derived from
    the name: the bare address or the base with a suffix from 2 to 100. *)
Theorem created_address_is_candidate repr net cfg st w pre hdrs name ue :
  calls (snd (snd (_create_azure_email repr net cfg (st, w))))
  = (calls w ++ pre ++ [create_request hdrs name ue])%list ->
  exists n base k,
    name = Some n
    /\ Employee.name (self st) = Some n
    /\ derive n (fmt_char (azure_domain cfg))
       = Ret (base, base ++ "@" ++ fmt_char (azure_domain cfg))
    /\ (1 <= k <= 100)%nat
    /\ ue = candidate base (fmt_char (azure_domain cfg)) k.
Proof.
  intros H.
  destruct (create_azure_email_calls repr net cfg st w)
    as [E | [n [hdrs' [base [m [rest [Hname [Hder [Hm [E Hrest]]]]]]]]]];
    cbv zeta in E; rewrite E in H.
  - exfalso. rewrite <- (List.app_nil_r (calls w)) in H at 1.
    apply List.app_inv_head in H. symmetry in H.
    now apply List.app_eq_nil in H.
  - apply List.app_inv_head in H. destruct Hrest as [->|[k [Hk ->]]].
    + exfalso. rewrite List.app_nil_r in H. revert H.
      apply not_create_last; [|reflexivity].
      constructor; [reflexivity|apply is_create_check].
    + change (?a :: ?l ++ [?q])%list with ((a :: l) ++ [q])%list in H.
      apply List.app_inj_tail in H. destruct H as [_ H].
      unfold create_request, create_payload in H. injection H.
      intros Hue _ Hn _. exists n, base, k.
      destruct name as [x|]; [|discriminate]. injection Hn as ->.
      repeat split; try assumption; try lia. now symmetry.
Qed.

Lemma created_address_is_candidate_witness :
  exists n base k,
    Some "Lalith Kumar" = Some n
    /\ Employee.name (self lalith) = Some n
    /\ derive n (fmt_char (azure_domain techcarrot))
       = Ret (base, base ++ "@" ++ fmt_char (azure_domain techcarrot))
    /\ (1 <= k <= 100)%nat
    /\ "lalith.kumar@techcarrot.ae"
       = candidate base (fmt_char (azure_domain techcarrot)) k.
Proof.
  exact (created_address_is_candidate no_repr (directory []) techcarrot lalith
           world0
           [ token_request (Some "tenant") (Some "client") (Some "secret")
               (Some 30%Z);
             check_request tok_hdrs "lalith.kumar@techcarrot.ae" ]
           tok_hdrs (Some "Lalith Kumar") "lalith.kumar@techcarrot.ae" eq_refl).
Defined.

(** ** Errors of a provisioning run *)

(** X4.  [_create_azure_email] never raises: whatever the record, the
    parameters and the answers of the network, it returns. *)
Theorem create_azure_email_never_raises repr net cfg st w :
  fst (_create_azure_email repr net cfg (st, w)) = Ret tt.
Proof. exact (proj1 (create_azure_email_shape repr net cfg st w)). Qed.

(** X5.  A run of [_create_azure_email] that leaves the record changed has
    ended with a creation call answered 201 with a JSON body, and the change
    is that both address fields hold the address of that call. *)
Theorem record_changed_only_by_created repr net cfg st w :
  let r := _create_azure_email repr net cfg (st, w) in
  fst (snd r) <> st ->
  exists pre hdrs ue v,
    calls (snd (snd r))
    = (calls w ++ pre ++ [create_request hdrs (Employee.name (self st)) ue])%list
    /\ net (calls w ++ pre)%list
         (create_request hdrs (Employee.name (self st)) ue)
       = Response 201 (Some v)
    /\ fst (snd r) = with_emails st ue.
Proof.
  intros r. unfold r.
  destruct (create_azure_email_shape repr net cfg st w) as [_ H].
  revert H. generalize (snd (_create_azure_email repr net cfg (st, w))).
  intros s H. destruct H as [lg|hdrs ues lg|hdrs ues ue lg pre q];
    cbn [fst snd calls]; intros Hne; try congruence.
  destruct (net (calls w ++ pre)%list q) as [|code content] eqn:E;
    [congruence|].
  destruct (Z.eqb_spec code 201) as [->|Hc].
  - destruct content as [v|]; [|congruence].
    exists pre, hdrs, ue, v. repeat split; assumption.
  - exfalso. apply Hne. destruct code as [|p|p]; try reflexivity.
    do 8 (destruct p as [p|p|]; try reflexivity). congruence.
Qed.

Lemma record_changed_only_by_created_witness :
  exists pre hdrs ue v,
    calls (snd (snd (_create_azure_email no_repr (directory []) techcarrot
                       (lalith, world0))))
    = (calls world0 ++ pre
       ++ [create_request hdrs (Employee.name (self lalith)) ue])%list
    /\ directory [] (calls world0 ++ pre)%list
         (create_request hdrs (Employee.name (self lalith)) ue)
       = Response 201 (Some v)
    /\ fst (snd (_create_azure_email no_repr (directory []) techcarrot
                   (lalith, world0)))
       = with_emails lalith ue.
Proof.
  apply (record_changed_only_by_created no_repr (directory []) techcarrot lalith
           world0).
  vm_compute. discriminate.
Defined.

Lemma probe_error (net : network) (hdrs : list (string * string))
    (base domain : string) (code : Z) (n : nat) :
  forall (fuel count : nat) (st : store) (w : world),
    (1 <= count)%nat -> (count + n <= 99)%nat -> (n < fuel)%nat ->
    (forall k hist, (count <= k < count + n)%nat ->
       status_of (net hist (check_request hdrs (candidate base domain k)))
       = Some 200%Z) ->
    (forall hist,
       status_of (net hist (check_request hdrs (candidate base domain (count + n))))
       = Some code) ->
    code <> 200%Z -> code <> 404%Z ->
    probe net fuel hdrs base domain count (candidate base domain count) (st, w)
    = (Ret None,
       (st, mkWorld
              (calls w ++ List.map (check_request hdrs)
                 (List.map (candidate base domain) (List.seq count (S n))))%list
              (logs w ++ exhausted_log base domain count n
               ++ [(ERROR, CheckError code)])%list)).
Proof.
  induction n as [|n IH]; intros fuel count st w Hc Hn Hf H200 Hcode H2 H4.
  - destruct fuel as [|fuel]; [lia|]. cbn [probe].
    destruct (Nat.ltb_spec count 100) as [_|]; [|lia].
    specialize (Hcode (calls w)). rewrite Nat.add_0_r in Hcode.
    run. destruct (net (calls w) _) as [|c content]; [discriminate|].
    cbn in Hcode. injection Hcode as ->. run.
    apply Z.eqb_neq in H2, H4. rewrite H2, H4. reflexivity.
  - destruct fuel as [|fuel]; [lia|]. cbn [probe].
    destruct (Nat.ltb_spec count 100) as [_|]; [|lia].
    pose proof (H200 count (calls w) ltac:(lia)) as H.
    run. destruct (net (calls w) _) as [|c content]; [discriminate|].
    cbn in H. injection H as ->. run. cbn [Z.eqb Pos.eqb]. run.
    rewrite (candidate_suffixed base domain count Hc), Nat.add_1_r.
    rewrite (IH fuel (S count)); try lia; try assumption.
    + cbn [calls logs]. rewrite <- !List.app_assoc. reflexivity.
    + intros k hist Hk. apply H200. lia.
    + intros hist. replace (S count + n)%nat with (count + S n)%nat by lia.
      apply Hcode.
Qed.

Section Provisioning.
Variables (repr : value -> string) (net : network) (cfg : config).
Variables (st : store) (w : world) (name base email : string).

Local Abbreviation tq := (provision_token cfg).
Local Abbreviation domain := (fmt_char (azure_domain cfg)).

Hypothesis Hall : all_set cfg = true.
Hypothesis Hname : Employee.name (self st) = Some name.
Hypothesis Hder : derive name domain = Ret (base, email).

Ltac to_token Ht :=
  unfold _create_azure_email; rewrite Hall; cbn [negb]; run;
  rewrite Hname; run; rewrite Hder; run;
  fold (provision_token cfg); rewrite Ht; run.

(** X6.  A token reply with a status from 400 to 599 ends the run after
    this one call: [raise_for_status] raises, the handler logs the
    [HTTPError], no lookup is made and the record is unchanged. *)
Theorem token_refused_aborts code content :
  net (calls w) tq = Response code content ->
  (400 <= code < 600)%Z ->
  _create_azure_email repr net cfg (st, w)
  = (Ret tt,
     (st, mkWorld (calls w ++ [tq])%list
              (logs w ++ [ (INFO, Processing name email);
                           (ERROR, ExceptionCaught (HTTPError code)) ])%list)).
Proof.
  intros Ht Hc. to_token Ht.
  replace ((400 <=? code) && (code <? 600))%Z with true
    by (symmetry; apply andb_true_iff; split;
        [apply Z.leb_le|apply Z.ltb_lt]; lia).
  run. rewrite <- List.app_assoc. reflexivity.
Qed.

(** X7.  A token reply with another status whose document holds no usable
    [access_token] ends the run after this one call with the error record
    of line 74; the record is unchanged. *)
Theorem token_missing_aborts code j token :
  net (calls w) tq = Response code (Some j) ->
  ~ (400 <= code < 600)%Z ->
  Py.get j "access_token" VNone = Ret token ->
  truthy token = false ->
  _create_azure_email repr net cfg (st, w)
  = (Ret tt,
     (st, mkWorld (calls w ++ [tq])%list
              (logs w ++ [ (INFO, Processing name email);
                           (ERROR, NoAccessToken) ])%list)).
Proof.
  intros Ht Hc Hj Htok. to_token Ht.
  replace ((400 <=? code) && (code <? 600))%Z with false.
  2:{ symmetry. apply not_true_is_false. intros H. apply Hc.
      apply andb_true_iff in H. destruct H as [H1 H2].
      apply Z.leb_le in H1. apply Z.ltb_lt in H2. lia. }
  run. rewrite Hj. run. rewrite Htok. cbn [negb]. run.
  rewrite <- List.app_assoc. reflexivity.
Qed.

(** X8.  When the first [n] candidates (at most 98) are found taken and
    the lookup of the next one is answered with a status that is neither
    200 nor 404, the run ends there: the status is logged as an error, no
    account is created and the record is unchanged. *)
Theorem lookup_error_aborts code j token (n : nat) (c : Z) :
  net (calls w) tq = Response code (Some j) ->
  ~ (400 <= code < 600)%Z ->
  Py.get j "access_token" VNone = Ret token ->
  truthy token = true ->
  let hdrs := [bearer repr token; ("Content-Type", "application/json")] in
  (n <= 98)%nat ->
  (forall k hist, (1 <= k <= n)%nat ->
     status_of (net hist (check_request hdrs (candidate base domain k)))
     = Some 200%Z) ->
  (forall hist,
     status_of (net hist (check_request hdrs (candidate base domain (n + 1))))
     = Some c) ->
  c <> 200%Z -> c <> 404%Z ->
  _create_azure_email repr net cfg (st, w)
  = (Ret tt,
     (st, mkWorld
              (calls w ++ tq :: List.map (check_request hdrs)
                                  (candidates base domain (n + 1)))%list
              (logs w ++ (INFO, Processing name email)
               :: exhausted_log base domain 1 n
               ++ [(ERROR, CheckError c)])%list)).
Proof.
  intros Ht Hc Hj Htok hdrs Hn H200 Herr H2 H4.
  pose proof (derive_email _ _ _ _ Hder) as He.
  to_token Ht.
  replace ((400 <=? code) && (code <? 600))%Z with false.
  2:{ symmetry. apply not_true_is_false. intros H. apply Hc.
      apply andb_true_iff in H. destruct H as [H1 H3].
      apply Z.leb_le in H1. apply Z.ltb_lt in H3. lia. }
  run. rewrite Hj. run. rewrite Htok. cbn [negb]. run. fold hdrs.
  rewrite He.
  change (base ++ "@" ++ domain) with (candidate base domain 1).
  rewrite (probe_error net hdrs base domain c n); try lia; try assumption.
  - run. unfold candidates. replace (n + 1)%nat with (S n) by lia.
    rewrite <- !List.app_assoc. reflexivity.
  - intros k hist Hk. apply H200. lia.
  - intros hist. replace (1 + n)%nat with (n + 1)%nat by lia. apply Herr.
Qed.

End Provisioning.

Lemma token_refused_aborts_witness :
  _create_azure_email no_repr token_denied techcarrot (lalith, world0)
  = (Ret tt,
     (lalith,
      mkWorld [provision_token techcarrot]
        [ (INFO, Processing "Lalith Kumar" "lalith.kumar@techcarrot.ae");
          (ERROR, ExceptionCaught (HTTPError 401)) ])).
Proof.
  apply (token_refused_aborts no_repr token_denied techcarrot lalith world0
           "Lalith Kumar" "lalith.kumar" "lalith.kumar@techcarrot.ae"
           eq_refl eq_refl eq_refl 401%Z
           (Some (VDict [("error", VStr "invalid_client")])) eq_refl).
  lia.
Defined.

Lemma token_missing_aborts_witness :
  _create_azure_email no_repr tokenless techcarrot (lalith, world0)
  = (Ret tt,
     (lalith,
      mkWorld [provision_token techcarrot]
        [ (INFO, Processing "Lalith Kumar" "lalith.kumar@techcarrot.ae");
          (ERROR, NoAccessToken) ])).
Proof.
  apply (token_missing_aborts no_repr tokenless techcarrot lalith world0
           "Lalith Kumar" "lalith.kumar" "lalith.kumar@techcarrot.ae"
           eq_refl eq_refl eq_refl 200%Z (VDict []) VNone eq_refl).
  - lia.
  - reflexivity.
  - reflexivity.
Defined.

Lemma lookup_error_aborts_witness :
  _create_azure_email no_repr faulty_directory techcarrot (lalith, world0)
  = (Ret tt,
     (lalith,
      mkWorld
        [ provision_token techcarrot;
          check_request tok_hdrs "lalith.kumar@techcarrot.ae" ]
        [ (INFO, Processing "Lalith Kumar" "lalith.kumar@techcarrot.ae");
          (ERROR, CheckError 500) ])).
Proof.
  apply (lookup_error_aborts no_repr faulty_directory techcarrot lalith world0
           "Lalith Kumar" "lalith.kumar" "lalith.kumar@techcarrot.ae"
           eq_refl eq_refl eq_refl 200%Z
           (VDict [("access_token", VStr "tok")]) (VStr "tok") 0 500%Z eq_refl).
  - lia.
  - reflexivity.
  - reflexivity.
  - lia.
  - intros k hist Hk. lia.
  - intros hist. reflexivity.
  - discriminate.
  - discriminate.
Defined.

(** X9.  A name that holds white space only gives no word, [parts[0]]
    raises [IndexError] inside the [try] block, and the run ends with this
    exception logged, before any call is made. *)
Theorem blank_name_is_caught repr net cfg st w name :
  all_set cfg = true ->
  Employee.name (self st) = Some name ->
  PyStr.split name = [] ->
  _create_azure_email repr net cfg (st, w)
  = (Ret tt,
     (st, mkWorld (calls w)
            (logs w ++ [(ERROR, ExceptionCaught IndexError)])%list)).
Proof.
  intros Hall Hname Hsplit. unfold _create_azure_email.
  rewrite Hall. cbn [negb]. run. rewrite Hname. run.
  unfold derive. rewrite split_lower_strip, Hsplit. reflexivity.
Qed.

Lemma blank_name_is_caught_witness :
  _create_azure_email no_repr offline techcarrot (blank, world0)
  = (Ret tt, (blank, mkWorld [] [(ERROR, ExceptionCaught IndexError)])).
Proof.
  exact (blank_name_is_caught no_repr offline techcarrot blank world0 "   "
           eq_refl eq_refl eq_refl).
Defined.

(** ** The derived base and the mail nickname *)

Lemma occurs_append c a b : occurs c (a ++ b) = occurs c a || occurs c b.
Proof.
  induction a as [|d a IH]; [reflexivity|]. cbn. now rewrite IH, orb_assoc.
Qed.

Lemma has_space_append a b : has_space (a ++ b) = has_space a || has_space b.
Proof.
  induction a as [|d a IH]; [reflexivity|]. cbn. now rewrite IH, orb_assoc.
Qed.

Lemma before_append c a b :
  occurs c a = false -> PyStr.before c (a ++ String c b) = a.
Proof.
  induction a as [|d a IH]; cbn.
  - intros _. now rewrite Ascii.eqb_refl.
  - intros H. apply orb_false_iff in H. destruct H as [Hd Ha].
    rewrite Hd. f_equal. now apply IH.
Qed.

Lemma uint_no_at d : occurs "@" (NilEmpty.string_of_uint d) = false.
Proof. induction d; cbn; assumption || reflexivity. Qed.

Lemma lower_char_at c :
  Ascii.eqb (PyStr.lower_char c) "@" = Ascii.eqb c "@".
Proof. destruct c as [[] [] [] [] [] [] [] []]; reflexivity. Qed.

Lemma occurs_at_lower s : occurs "@" (PyStr.lower s) = occurs "@" s.
Proof.
  induction s as [|d s IH]; [reflexivity|]. cbn. now rewrite lower_char_at, IH.
Qed.

Lemma has_space_lower s : has_space (PyStr.lower s) = has_space s.
Proof.
  induction s as [|d s IH]; [reflexivity|].
  cbn. now rewrite is_space_lower_char, IH.
Qed.

Lemma lower_char_idem c :
  PyStr.lower_char (PyStr.lower_char c) = PyStr.lower_char c.
Proof. destruct c as [[] [] [] [] [] [] [] []]; reflexivity. Qed.

Lemma lower_idem s : PyStr.lower (PyStr.lower s) = PyStr.lower s.
Proof.
  induction s as [|d s IH]; [reflexivity|]. cbn. now rewrite lower_char_idem, IH.
Qed.

Lemma split_from_parts s :
  forall cur p,
    has_space cur = false ->
    List.In p (PyStr.split_from cur s) ->
    has_space p = false
    /\ forall c, occurs c p = true -> occurs c cur || occurs c s = true.
Proof.
  induction s as [|d s IH]; intros cur p Hcur Hin; cbn in Hin.
  - destruct cur; [contradiction|]. destruct Hin as [<-|[]].
    split; [exact Hcur|]. intros c H. now rewrite H.
  - destruct (PyStr.is_space d) eqn:Ed.
    + destruct cur as [|x cur].
      * destruct (IH EmptyString p eq_refl Hin) as [H1 H2]. split; [exact H1|].
        intros c H. apply H2 in H. cbn in *. rewrite H. apply orb_true_r.
      * destruct Hin as [<-|Hin].
        { split; [exact Hcur|]. intros c H. now rewrite H. }
        destruct (IH EmptyString p eq_refl Hin) as [H1 H2]. split; [exact H1|].
        intros c H. apply H2 in H. cbn in H. cbn [occurs]. rewrite H.
        now rewrite !orb_true_r.
    + assert (has_space (cur ++ String d EmptyString) = false) as Hc.
      { rewrite has_space_append, Hcur. cbn. now rewrite Ed. }
      destruct (IH _ p Hc Hin) as [H1 H2]. split; [exact H1|].
      intros c H. apply H2 in H. rewrite occurs_append in H. cbn in H.
      cbn [occurs]. rewrite orb_false_r in H.
      rewrite <- orb_assoc in H. exact H.
Qed.

Lemma last_in {A} (l : list A) (d : A) : l <> [] -> List.In (List.last l d) l.
Proof.
  induction l as [|x l IH]; [congruence|]. intros _.
  destruct l as [|y l]; [now left|]. right. apply IH. discriminate.
Qed.

Lemma last_in_cons {A} (l : list A) (d : A) : List.In (List.last l d) (d :: l).
Proof.
  destruct l as [|x l]; [now left|]. right. apply last_in. discriminate.
Qed.

Lemma derive_value name domain p ps :
  PyStr.split name = p :: ps ->
  derive name domain
  = Ret (PyStr.lower p ++ "." ++ PyStr.lower (List.last ps p),
         (PyStr.lower p ++ "." ++ PyStr.lower (List.last ps p)) ++ "@" ++ domain).
Proof.
  intros E. unfold derive. rewrite split_lower_strip, E.
  destruct ps as [|q ps]; [reflexivity|].
  cbn [List.map List.length Nat.ltb Nat.leb].
  change (List.last (PyStr.lower p :: PyStr.lower q :: List.map PyStr.lower ps)
            (PyStr.lower p))
    with (List.last (List.map PyStr.lower (p :: q :: ps)) (PyStr.lower p)).
  rewrite last_map_lower.
  change (List.last (p :: q :: ps) p) with (List.last (q :: ps) p).
  reflexivity.
Qed.

Lemma derive_parts name domain base email :
  derive name domain = Ret (base, email) ->
  exists p q,
    List.In p (PyStr.split name)
    /\ List.In q (PyStr.split name)
    /\ base = PyStr.lower p ++ "." ++ PyStr.lower q.
Proof.
  destruct (PyStr.split name) as [|p ps] eqn:E.
  - unfold derive. rewrite split_lower_strip, E. discriminate.
  - rewrite (derive_value name domain p ps E). intros H.
    exists p, (List.last ps p). split; [now left|].
    split; [apply last_in_cons|]. congruence.
Qed.

Lemma split_parts name p :
  List.In p (PyStr.split name) ->
  has_space p = false /\ forall c, occurs c p = true -> occurs c name = true.
Proof.
  intros H. destruct (split_from_parts name EmptyString p eq_refl H) as [H1 H2].
  split; [exact H1|]. intros c Hc. now apply H2 in Hc.
Qed.

(** X10.  The base derived from a name holds no white space and is in
    lower case. *)
Theorem derive_base_clean name domain base email :
  derive name domain = Ret (base, email) ->
  has_space base = false /\ PyStr.lower base = base.
Proof.
  intros H. destruct (derive_parts _ _ _ _ H) as [p [q [Hp [Hq ->]]]].
  destruct (split_parts name p Hp) as [Sp _].
  destruct (split_parts name q Hq) as [Sq _].
  split.
  - rewrite !has_space_append, !has_space_lower, Sp, Sq. reflexivity.
  - rewrite !lower_append, !lower_idem. reflexivity.
Qed.

Lemma derive_base_clean_witness :
  has_space "lalith.kumar" = false /\ PyStr.lower "lalith.kumar" = "lalith.kumar".
Proof.
  exact (derive_base_clean "Lalith Kumar" "techcarrot.ae" "lalith.kumar"
           "lalith.kumar@techcarrot.ae" eq_refl).
Defined.

Lemma derive_no_at name domain base email :
  occurs "@" name = false ->
  derive name domain = Ret (base, email) ->
  occurs "@" base = false.
Proof.
  intros Hno H. destruct (derive_parts _ _ _ _ H) as [p [q [Hp [Hq ->]]]].
  destruct (split_parts name p Hp) as [_ Cp].
  destruct (split_parts name q Hq) as [_ Cq].
  rewrite !occurs_append, !occurs_at_lower. cbn.
  destruct (occurs "@" p) eqn:Ep; [apply Cp in Ep; congruence|].
  destruct (occurs "@" q) eqn:Eq; [apply Cq in Eq; congruence|].
  reflexivity.
Qed.

Lemma candidate_local_part base domain k :
  candidate base domain k = local_part base k ++ "@" ++ domain.
Proof.
  unfold candidate, local_part. destruct (k =? 1)%nat; [reflexivity|].
  now rewrite append_assoc.
Qed.

(** X11.  For a name without [@], the [mailNickname] of the creation
    payload for the k-th candidate is the base, followed by [k] when [k] is
    not 1: the nickname carries the same suffix as the address. *)
Theorem mail_nickname_is_local_part name domain base email nm k :
  occurs "@" name = false ->
  derive name domain = Ret (base, email) ->
  Py.get (create_payload nm (candidate base domain k)) "mailNickname" VNone
  = Ret (VStr (local_part base k)).
Proof.
  intros Hno H. pose proof (derive_no_at _ _ _ _ Hno H) as Hb.
  cbn. f_equal. f_equal. rewrite candidate_local_part.
  apply before_append. unfold local_part.
  destruct (k =? 1)%nat; [exact Hb|].
  rewrite occurs_append, Hb. apply uint_no_at.
Qed.

Lemma mail_nickname_is_local_part_witness :
  Py.get (create_payload (Some "Lalith Kumar")
            (candidate "lalith.kumar" "techcarrot.ae" 2)) "mailNickname" VNone
  = Ret (VStr "lalith.kumar2").
Proof.
  exact (mail_nickname_is_local_part "Lalith Kumar" "techcarrot.ae"
           "lalith.kumar" "lalith.kumar@techcarrot.ae" (Some "Lalith Kumar") 2
           eq_refl eq_refl).
Defined.

(** X12.  The derivation reads the name through its lowered words only:
    two names whose words agree up to case, whatever the white space around
    and between them, give the same base and first address. *)
Theorem derive_reads_lowered_words a b domain :
  List.map PyStr.lower (PyStr.split a) = List.map PyStr.lower (PyStr.split b) ->
  derive a domain = derive b domain.
Proof.
  intros H. unfold derive. rewrite !split_lower_strip, H. reflexivity.
Qed.

Lemma derive_reads_lowered_words_witness :
  derive "  LALITH   Kumar " "techcarrot.ae" = derive "lalith kumar" "techcarrot.ae".
Proof.
  exact (derive_reads_lowered_words "  LALITH   Kumar " "lalith kumar"
           "techcarrot.ae" eq_refl).
Defined.

(** ** The two forms of a department name *)

Lemma lower_replace c by_ s :
  PyStr.lower_char c = c ->
  (forall d, PyStr.lower_char d = c -> d = c) ->
  PyStr.lower (PyStr.replace c by_ s)
  = PyStr.replace c (PyStr.lower by_) (PyStr.lower s).
Proof.
  intros Hc Honly. induction s as [|d s IH]; [reflexivity|]. cbn.
  destruct (Ascii.eqb_spec d c) as [->|Hd].
  - rewrite Hc, Ascii.eqb_refl, lower_append, IH. reflexivity.
  - destruct (Ascii.eqb_spec (PyStr.lower_char d) c) as [E|_].
    + apply Honly in E. contradiction.
    + cbn. now rewrite IH.
Qed.

Lemma only_space_lowers_to_space d : PyStr.lower_char d = " "%char -> d = " "%char.
Proof.
  destruct d as [[] [] [] [] [] [] [] []]; intros H; vm_compute in H;
    try discriminate H; reflexivity.
Qed.

Lemma only_amp_lowers_to_amp d : PyStr.lower_char d = "&"%char -> d = "&"%char.
Proof.
  destruct d as [[] [] [] [] [] [] [] []]; intros H; vm_compute in H;
    try discriminate H; reflexivity.
Qed.

(** X13.  The lower form of a department name is the upper form in lower
    case: lowering before the two replacements of lines 56-57 or after them
    gives the same text. *)
Theorem dept_name_lower_is_lowered_upper n :
  dept_name_lower n = PyStr.lower (dept_name_upper n).
Proof.
  unfold dept_name_lower, dept_name_upper.
  rewrite (lower_replace "&" "and" _ eq_refl only_amp_lowers_to_amp).
  rewrite (lower_replace " " "_" _ eq_refl only_space_lowers_to_space).
  reflexivity.
Qed.

Lemma occurs_replace_same c by_ s :
  occurs c by_ = false -> occurs c (PyStr.replace c by_ s) = false.
Proof.
  intros Hb. induction s as [|d s IH]; [reflexivity|]. cbn.
  destruct (Ascii.eqb d c) eqn:E.
  - now rewrite occurs_append, Hb, IH.
  - cbn. now rewrite E, IH.
Qed.

Lemma occurs_replace_other c d by_ s :
  occurs c by_ = false -> occurs c s = false ->
  occurs c (PyStr.replace d by_ s) = false.
Proof.
  intros Hb. induction s as [|x s IH]; [reflexivity|]. cbn. intros H.
  apply orb_false_iff in H. destruct H as [Hx Hs].
  destruct (Ascii.eqb x d).
  - rewrite occurs_append, Hb. now apply IH.
  - cbn. rewrite Hx. now apply IH.
Qed.

(** X14.  Neither form of a department name holds a space or an
    ampersand. *)
Theorem dept_names_have_no_space_or_ampersand n :
  occurs " " (dept_name_upper n) = false
  /\ occurs "&" (dept_name_upper n) = false
  /\ occurs " " (dept_name_lower n) = false
  /\ occurs "&" (dept_name_lower n) = false.
Proof.
  unfold dept_name_upper, dept_name_lower. repeat split.
  - apply occurs_replace_other; [reflexivity|]. now apply occurs_replace_same.
  - now apply occurs_replace_same.
  - apply occurs_replace_other; [reflexivity|]. now apply occurs_replace_same.
  - now apply occurs_replace_same.
Qed.

(** ** [create] and [_add_to_dept_dl] *)

(** X15.  For a record with a name and without [azure_user_id], [create]
    does what [_create_azure_email] does and nothing more, with or without
    a department. *)
Theorem create_without_user_id repr net create_dl cfg st w :
  truthy_char (Employee.name (self st)) = true ->
  truthy_char (Employee.azure_user_id (self st)) = false ->
  create repr net create_dl cfg (st, w) = _create_azure_email repr net cfg (st, w).
Proof.
  intros Hname Hu. unfold create. run. rewrite Hname. run.
  pose proof (create_azure_email_keeps_user_id repr net cfg st w) as Hk.
  pose proof (proj1 (create_azure_email_shape repr net cfg st w)) as Ho.
  cbv zeta in Ho.
  destruct (_create_azure_email repr net cfg (st, w)) as [o [st' w']].
  cbn [fst snd] in Hk, Ho. subst o. run.
  rewrite Hk, Hu. destruct (department_id st'); reflexivity.
Qed.

Lemma create_without_user_id_witness :
  create no_repr (directory []) missing_create_dl techcarrot
    (mkStore (self lalith) (Some sales_unlinked), world0)
  = _create_azure_email no_repr (directory []) techcarrot
      (mkStore (self lalith) (Some sales_unlinked), world0).
Proof.
  exact (create_without_user_id no_repr (directory []) missing_create_dl
           techcarrot (mkStore (self lalith) (Some sales_unlinked)) world0
           eq_refl eq_refl).
Defined.

(** X16.  For a record with a name, a department and an [azure_user_id],
    [create] is [_create_azure_email] followed by [_add_to_dept_dl]. *)
Theorem create_then_add_to_dept_dl repr net create_dl cfg st w dept :
  truthy_char (Employee.name (self st)) = true ->
  department_id st = Some dept ->
  truthy_char (Employee.azure_user_id (self st)) = true ->
  create repr net create_dl cfg (st, w)
  = _add_to_dept_dl repr net create_dl cfg
      (snd (_create_azure_email repr net cfg (st, w))).
Proof.
  intros Hname Hd Hu. unfold create. run. rewrite Hname. run.
  pose proof (create_azure_email_keeps_user_id repr net cfg st w) as Hk.
  pose proof (create_azure_email_keeps_department repr net cfg st w) as Hdep.
  pose proof (proj1 (create_azure_email_shape repr net cfg st w)) as Ho.
  cbv zeta in Ho.
  destruct (_create_azure_email repr net cfg (st, w)) as [o [st' w']].
  cbn [fst snd] in Hk, Hdep, Ho. subst o. run.
  rewrite Hdep, Hd, Hk, Hu. reflexivity.
Qed.

Lemma create_then_add_to_dept_dl_witness :
  create no_repr (directory []) missing_create_dl techcarrot (kumar_in_sales, world0)
  = _add_to_dept_dl no_repr (directory []) missing_create_dl techcarrot
      (snd (_create_azure_email no_repr (directory []) techcarrot
              (kumar_in_sales, world0))).
Proof.
  exact (create_then_add_to_dept_dl no_repr (directory []) missing_create_dl
           techcarrot kumar_in_sales world0 sales eq_refl eq_refl eq_refl).
Defined.

(** X17.  [create] never raises for a record whose department, if it has
    one, is linked to a group. *)
Theorem create_never_raises repr net create_dl cfg st w :
  (forall dept, department_id st = Some dept ->
                truthy_char (Department.azure_dl_id dept) = true) ->
  fst (create repr net create_dl cfg (st, w)) = Ret tt.
Proof.
  intros Hlinked. unfold create. run.
  destruct (truthy_char (Employee.name (self st))); run; [|reflexivity].
  pose proof (create_azure_email_keeps_department repr net cfg st w) as Hd.
  pose proof (proj1 (create_azure_email_shape repr net cfg st w)) as Ho.
  cbv zeta in Ho.
  destruct (_create_azure_email repr net cfg (st, w)) as [o [st' w']].
  cbn [fst snd] in Hd, Ho. subst o. run.
  destruct (department_id st') as [dept|] eqn:E; [|reflexivity].
  destruct (truthy_char (Employee.azure_user_id (self st'))) eqn:Hu;
    [|reflexivity].
  rewrite (add_to_dept_dl_linked repr net create_dl cfg st' w' dept E
             (Hlinked dept (eq_sym Hd)) Hu).
  destruct (add_member_total repr net cfg (self st') dept st' w') as [w'' Ea].
  now rewrite Ea.
Qed.

Lemma create_never_raises_witness :
  fst (create no_repr (directory []) missing_create_dl techcarrot
         (kumar_in_sales, world0)) = Ret tt.
Proof.
  apply (create_never_raises no_repr (directory []) missing_create_dl techcarrot
           kumar_in_sales world0).
  intros dept H. injection H as <-. reflexivity.
Defined.

(** X18.  [_add_to_dept_dl] does nothing for an employee without
    department or without [azure_user_id]: no call, no log record, and
    [create_dl] is not called. *)
Theorem add_to_dept_dl_guard repr net create_dl cfg st w :
  department_id st = None
  \/ truthy_char (Employee.azure_user_id (self st)) = false ->
  _add_to_dept_dl repr net create_dl cfg (st, w) = (Ret tt, (st, w)).
Proof.
  intros H. unfold _add_to_dept_dl. run.
  destruct (department_id st) as [dept|]; [|reflexivity].
  destruct H as [H|H]; [discriminate|]. rewrite H. reflexivity.
Qed.

Lemma add_to_dept_dl_guard_witness :
  _add_to_dept_dl no_repr offline missing_create_dl techcarrot
    (mkStore (self lalith) (Some sales_unlinked), world0)
  = (Ret tt, (mkStore (self lalith) (Some sales_unlinked), world0)).
Proof.
  exact (add_to_dept_dl_guard no_repr offline missing_create_dl techcarrot
           (mkStore (self lalith) (Some sales_unlinked)) world0
           (or_intror eq_refl)).
Defined.

(** X19.  [create_dl] is called outside the [try] block: for an employee
    with an account in a department that is not linked, an exception of
    [create_dl] leaves [_add_to_dept_dl], and no call of its own is
    made. *)
Theorem create_dl_error_propagates repr net create_dl cfg st w dept e d' w' :
  department_id st = Some dept ->
  truthy_char (Department.azure_dl_id dept) = false ->
  truthy_char (Employee.azure_user_id (self st)) = true ->
  create_dl (dept, w) = (Raise e, (d', w')) ->
  _add_to_dept_dl repr net create_dl cfg (st, w)
  = (Raise e, (mkStore (self st) (Some d'), w')).
Proof.
  intros Hd Hdl Hu Hc. unfold _add_to_dept_dl. run.
  rewrite Hd, Hu, Hdl. cbn [negb]. unfold on_department. cbn [fst snd].
  rewrite Hd, Hc. reflexivity.
Qed.

Lemma create_dl_error_propagates_witness :
  _add_to_dept_dl no_repr group_members missing_create_dl techcarrot
    (kumar_unlinked, world0)
  = (Raise AttributeError, (kumar_unlinked, world0)).
Proof.
  exact (create_dl_error_propagates no_repr group_members missing_create_dl
           techcarrot kumar_unlinked world0 sales_unlinked AttributeError
           sales_unlinked world0 eq_refl eq_refl eq_refl eq_refl).
Defined.

(** X20.  After a [create_dl] that returns, [_add_to_dept_dl] reads
    [azure_dl_id] again: it goes on to add the member when the department is
    now linked, and ends silently when it is not. *)
Theorem add_after_create_dl repr net create_dl cfg st w dept d' w' :
  department_id st = Some dept ->
  truthy_char (Department.azure_dl_id dept) = false ->
  truthy_char (Employee.azure_user_id (self st)) = true ->
  create_dl (dept, w) = (Ret tt, (d', w')) ->
  _add_to_dept_dl repr net create_dl cfg (st, w)
  = if truthy_char (Department.azure_dl_id d')
    then add_member repr net cfg (self st) d' (mkStore (self st) (Some d'), w')
    else (Ret tt, (mkStore (self st) (Some d'), w')).
Proof.
  intros Hd Hdl Hu Hc. unfold _add_to_dept_dl. run.
  rewrite Hd, Hu, Hdl. cbn [negb]. unfold on_department. cbn [fst snd].
  rewrite Hd, Hc. cbn [fst snd self department_id].
  destruct (truthy_char (Department.azure_dl_id d')); reflexivity.
Qed.

Lemma add_after_create_dl_witness :
  _add_to_dept_dl no_repr group_members linking_create_dl techcarrot
    (kumar_unlinked, world0)
  = add_member no_repr group_members techcarrot (self kumar_unlinked) sales
      (kumar_in_sales, world0).
Proof.
  exact (add_after_create_dl no_repr group_members linking_create_dl techcarrot
           kumar_unlinked world0 sales_unlinked sales world0
           eq_refl eq_refl eq_refl eq_refl).
Defined.

(** X21.  [_add_to_dept_dl] does not check the token: when the document
    of the token reply has no [access_token], the member request is still
    sent, with the header [Bearer None]. *)
Theorem add_member_without_token repr net cfg e dept st w code items :
  net (calls w) (token_request (azure_tenant_id cfg) (azure_client_id cfg)
                   (azure_client_secret cfg) None)
  = Response code (Some (VDict items)) ->
  Py.lookup "access_token" items = None ->
  calls (snd (snd (add_member repr net cfg e dept (st, w))))
  = (calls w
     ++ [ token_request (azure_tenant_id cfg) (azure_client_id cfg)
            (azure_client_secret cfg) None;
          member_request
            [("Authorization", "Bearer None"); ("Content-Type", "application/json")]
            (Department.azure_dl_id dept) (Employee.azure_user_id e) ])%list.
Proof.
  intros Ht Hl. unfold add_member. run. rewrite Ht. run.
  cbn [Py.get]. rewrite Hl. run.
  change [bearer repr VNone; ("Content-Type", "application/json")]
    with [("Authorization", "Bearer None"); ("Content-Type", "application/json")].
  rewrite <- !List.app_assoc. cbn [List.app].
  destruct (net _ (member_request _ _ _)) as [|c content]; run; [reflexivity|].
  destruct (c =? 204)%Z; [reflexivity|].
  destruct (c =? 400)%Z; reflexivity.
Qed.

Lemma add_member_without_token_witness :
  calls (snd (snd (add_member no_repr token_denied techcarrot
                     (self kumar_in_sales) sales (kumar_in_sales, world0))))
  = [ token_request (Some "tenant") (Some "client") (Some "secret") None;
      member_request
        [("Authorization", "Bearer None"); ("Content-Type", "application/json")]
        (Some "g-1") (Some "u-1") ].
Proof.
  exact (add_member_without_token no_repr token_denied techcarrot
           (self kumar_in_sales) sales kumar_in_sales world0 401%Z
           [("error", VStr "invalid_client")] eq_refl eq_refl).
Defined.

(** X22.  For a linked department and an employee with an account, once
    the token reply is a JSON document (whatever its status) the run makes
    the token request and the member request, returns, leaves the record
    unchanged and logs one record chosen by the status of the member
    request: added for 204, already a member for 400, an error with the
    status otherwise. *)
Theorem add_to_dept_dl_logs_status repr net create_dl cfg st w dept
    tc j token code content :
  let tq := token_request (azure_tenant_id cfg) (azure_client_id cfg)
              (azure_client_secret cfg) None in
  let mq := member_request [bearer repr token; ("Content-Type", "application/json")]
              (Department.azure_dl_id dept) (Employee.azure_user_id (self st)) in
  department_id st = Some dept ->
  truthy_char (Department.azure_dl_id dept) = true ->
  truthy_char (Employee.azure_user_id (self st)) = true ->
  net (calls w) tq = Response tc (Some j) ->
  Py.get j "access_token" VNone = Ret token ->
  net (calls w ++ [tq])%list mq = Response code content ->
  _add_to_dept_dl repr net create_dl cfg (st, w)
  = (Ret tt,
     (st, mkWorld (calls w ++ [tq; mq])%list
            (logs w ++
             [ if (code =? 204)%Z then
                 (INFO, AddedToDl (fmt_char (Employee.name (self st)))
                                  (fmt_char (Department.azure_dl_email dept)))
               else if (code =? 400)%Z then
                 (INFO, AlreadyInDl (fmt_char (Employee.name (self st)))
                                    (fmt_char (Department.azure_dl_email dept)))
               else (ERROR, AddStatus code) ])%list)).
Proof.
  intros tq mq Hd Hdl Hu Ht Hj Hm.
  rewrite (add_to_dept_dl_linked repr net create_dl cfg st w dept Hd Hdl Hu).
  exact (add_member_status repr net cfg (self st) dept st w tc j token code
           content Ht Hj Hm).
Qed.

Lemma add_to_dept_dl_logs_status_witness :
  _add_to_dept_dl no_repr group_members no_create_dl techcarrot
    (kumar_in_sales, world0)
  = (Ret tt,
     (kumar_in_sales,
      mkWorld
        [ token_request (Some "tenant") (Some "client") (Some "secret") None;
          member_request tok_hdrs (Some "g-1") (Some "u-1") ]
        [ (INFO, AddedToDl "Lalith Kumar" "DL_Sales@techcarrot.ae") ])).
Proof.
  exact (add_to_dept_dl_logs_status no_repr group_members no_create_dl techcarrot
           kumar_in_sales world0 sales 200%Z
           (VDict [("access_token", VStr "tok")]) (VStr "tok") 204%Z None
           eq_refl eq_refl eq_refl eq_refl eq_refl eq_refl).
Defined.

(** X23.  When the token request of [_add_to_dept_dl] fails, the
    exception is logged and swallowed after this one call. *)
Theorem add_to_dept_dl_failure_is_logged repr net create_dl cfg st w dept :
  department_id st = Some dept ->
  truthy_char (Department.azure_dl_id dept) = true ->
  truthy_char (Employee.azure_user_id (self st)) = true ->
  net (calls w) (token_request (azure_tenant_id cfg) (azure_client_id cfg)
                   (azure_client_secret cfg) None) = Failure ->
  _add_to_dept_dl repr net create_dl cfg (st, w)
  = (Ret tt,
     (st, mkWorld (calls w ++ [token_request (azure_tenant_id cfg)
                                 (azure_client_id cfg)
                                 (azure_client_secret cfg) None])%list
            (logs w ++ [(ERROR, AddException RequestException)])%list)).
Proof.
  intros Hd Hdl Hu Ht.
  rewrite (add_to_dept_dl_linked repr net create_dl cfg st w dept Hd Hdl Hu).
  unfold add_member. run. rewrite Ht. run. reflexivity.
Qed.

Lemma add_to_dept_dl_failure_is_logged_witness :
  _add_to_dept_dl no_repr offline no_create_dl techcarrot (kumar_in_sales, world0)
  = (Ret tt,
     (kumar_in_sales,
      mkWorld
        [ token_request (Some "tenant") (Some "client") (Some "secret") None ]
        [ (ERROR, AddException RequestException) ])).
Proof.
  exact (add_to_dept_dl_failure_is_logged no_repr offline no_create_dl techcarrot
           kumar_in_sales world0 sales eq_refl eq_refl eq_refl eq_refl).
Defined.

(** ** The outcomes of a sync *)

Lemma sync_run_shape repr net cfg d w :
  exists o new,
    fst (action_sync_dl_from_azure repr net cfg (d, w)) = Ret o
    /\ calls (snd (snd (action_sync_dl_from_azure repr net cfg (d, w))))
       = (calls w ++ new)%list
    /\ sync_shape repr cfg w new.
Proof.
  assert (forall new : list request,
             new = [] -> (calls w ++ new)%list = calls w) as Hnil
      by (intros new ->; apply List.app_nil_r).
  unfold action_sync_dl_from_azure.
  destruct (all_set cfg); cbn [negb]; run;
    [|eexists; exists []; split; [reflexivity|split; [now rewrite Hnil|constructor]]].
  fold (sync_token cfg).
  destruct (net (calls w) (sync_token cfg)) as [|code content]; run;
    [eexists; exists [sync_token cfg]; repeat split; constructor|].
  destruct content as [j|]; run;
    [|eexists; exists [sync_token cfg]; repeat split; constructor].
  destruct (Py.get j "access_token" VNone) as [token|e]; run;
    [|eexists; exists [sync_token cfg]; repeat split; constructor].
  destruct (truthy token); cbn [negb]; run;
    [|eexists; exists [sync_token cfg]; repeat split; constructor].
  destruct (Department.name d) as [n|]; run;
    [|eexists; exists [sync_token cfg]; repeat split; constructor].
  rewrite search_run. cbn [calls logs]. fold (upper_search repr cfg token n).
  destruct (search_result _ _) as [g1|e]; run;
    [|eexists; exists [sync_token cfg; upper_search repr cfg token n];
      split; [reflexivity|split;
       [rewrite <- List.app_assoc; reflexivity|constructor]]].
  destruct (truthy g1); cbn [negb andb]; run.
  2: destruct (dept_name_upper n =? dept_name_lower n) eqn:Eq; cbn [negb]; run.
  3:{ rewrite search_run. cbn [calls logs]. fold (lower_search repr cfg token n).
      apply String.eqb_neq in Eq.
      destruct (search_result _ _) as [g2|e]; run.
      2:{ eexists; exists [sync_token cfg; upper_search repr cfg token n;
                           lower_search repr cfg token n].
          split; [reflexivity|split;
            [rewrite <- !List.app_assoc; reflexivity|now constructor]]. }
      match goal with
      | |- context [link_first ?a ?b ?c ?e ?f ?g (?x, ?y)] =>
          destruct (link_first_shape a b c e f g x y) as [o [lg [d' [E _]]]];
          rewrite E
      end.
      destruct o; cbn [fst snd calls]; eexists;
        exists [sync_token cfg; upper_search repr cfg token n;
                lower_search repr cfg token n];
        (split; [reflexivity|split;
            [rewrite <- !List.app_assoc; reflexivity|now constructor]]). }
  all: match goal with
      | |- context [link_first ?a ?b ?c ?e ?f ?g (?x, ?y)] =>
          destruct (link_first_shape a b c e f g x y) as [o [lg [d' [E _]]]];
          rewrite E
      end;
      destruct o; cbn [fst snd calls]; eexists;
        exists [sync_token cfg; upper_search repr cfg token n];
        (split; [reflexivity|split;
            [rewrite <- !List.app_assoc; reflexivity|constructor]]).
Qed.

(** X24.  [action_sync_dl_from_azure] never raises: every run returns a
    notification or [None]. *)
Theorem sync_never_raises repr net cfg d w :
  exists o, fst (action_sync_dl_from_azure repr net cfg (d, w)) = Ret o.
Proof.
  destruct (sync_run_shape repr net cfg d w) as [o [new [H _]]]. now exists o.
Qed.

(** X25.  A sync adds at most three calls to the history: a [POST] for
    the token and then at most two [GET] searches. *)
Theorem sync_call_bound repr net cfg d w :
  exists new,
    calls (snd (snd (action_sync_dl_from_azure repr net cfg (d, w))))
    = (calls w ++ new)%list
    /\ (List.length new <= 3)%nat
    /\ List.map meth new = List.firstn (List.length new) [POST; GET; GET].
Proof.
  destruct (sync_run_shape repr net cfg d w) as [o [new [_ [H S]]]].
  exists new. split; [exact H|].
  destruct S; cbn; split; (lia || reflexivity).
Qed.

Lemma search_result_kept r g1 :
  truthy g1 = false -> no_match r = true ->
  exists g, search_result r g1 = Ret g /\ truthy g = false.
Proof.
  intros Hg Hno. destruct r as [|code content]; [discriminate|].
  unfold no_match in Hno. unfold search_result.
  destruct (code =? 200)%Z; [|now exists g1].
  destruct content as [j|]; [|discriminate].
  destruct (Py.get j "value" (VList [])) as [g|e]; [|discriminate].
  exists g. split; [reflexivity|]. now destruct (truthy g).
Qed.

Section SyncOutcome.
Variables (repr : value -> string) (net : network) (cfg : config).
Variables (d : Department.t) (w : world) (n : string) (token : value).

Local Abbreviation tq := (sync_token cfg).
Local Abbreviation domain := (fmt_char (azure_domain cfg)).
Local Abbreviation up := (upper_search repr cfg token n).
Local Abbreviation lo := (lower_search repr cfg token n).
Local Abbreviation r := (action_sync_dl_from_azure repr net cfg (d, w)).

Hypothesis Hall : all_set cfg = true.
Hypothesis Hname : Department.name d = Some n.
Hypothesis Htoken :
  exists code j,
    net (calls w) tq = Response code (Some j)
    /\ Py.get j "access_token" VNone = Ret token
    /\ truthy token = true.

Ltac to_search :=
  let code := fresh "code" in
  let j := fresh "j" in
  let Ht := fresh "Ht" in
  let Hj := fresh "Hj" in
  let Htr := fresh "Htr" in
  destruct Htoken as [code [j [Ht [Hj Htr]]]];
  unfold action_sync_dl_from_azure; rewrite Hall; cbn [negb]; run;
  fold tq; rewrite Ht; run; rewrite Hj; run; rewrite Htr; cbn [negb]; run;
  rewrite Hname; run;
  rewrite search_run; cbn [calls logs]; fold up.

Lemma upper_hit_run j1 grp rest mail id :
  net (calls w ++ [tq])%list up = Response 200 (Some j1) ->
  Py.get j1 "value" (VList []) = Ret (VList (grp :: rest)) ->
  Py.get grp "mail" VNone = Ret mail ->
  Py.get grp "id" VNone = Ret id ->
  r = (Ret (Some (LinkedNotice mail)),
       (Department.mk (Some n) (to_char repr mail) (to_char repr id),
        mkWorld (calls w ++ [tq; up])%list
          (logs w ++ [(INFO, Searching (dl_email (dept_name_upper n) domain));
                      (INFO, Linked n (str repr mail))])%list)).
Proof.
  intros H1 Hv Hm Hi. to_search. rewrite H1.
  cbn [search_result Z.eqb Pos.eqb]. rewrite Hv. run. cbn [truthy negb andb]. run.
  rewrite (link_first_hit repr _ _ _ _ grp rest mail id _ _ Hm Hi).
  cbn [fst snd calls logs]. rewrite Hname, <- !List.app_assoc. reflexivity.
Qed.

(** X26.  When the search for the upper form is answered 200 with a
    non-empty list of groups, the lower form is not searched: the department
    is linked to the first group of that list and the success notification
    names its mail. *)
Theorem sync_upper_hit j1 grp rest mail id :
  net (calls w ++ [tq])%list up = Response 200 (Some j1) ->
  Py.get j1 "value" (VList []) = Ret (VList (grp :: rest)) ->
  Py.get grp "mail" VNone = Ret mail ->
  Py.get grp "id" VNone = Ret id ->
  fst r = Ret (Some (LinkedNotice mail))
  /\ fst (snd r) = Department.mk (Some n) (to_char repr mail) (to_char repr id)
  /\ calls (snd (snd r)) = (calls w ++ [tq; up])%list.
Proof.
  intros H1 Hv Hm Hi.
  rewrite (upper_hit_run j1 grp rest mail id H1 Hv Hm Hi).
  repeat split.
Qed.

(** X27.  When the search for the upper form finds no group, and the two
    forms are equal or the search for the lower form finds none either, the
    sync returns the warning that names both addresses tried, logs the
    warning last and leaves the department unchanged. *)
Theorem sync_not_found :
  no_match (net (calls w ++ [tq])%list up) = true ->
  (dept_name_upper n = dept_name_lower n
   \/ no_match (net (calls w ++ [tq; up])%list lo) = true) ->
  fst r = Ret (Some (NotFoundNotice (dl_email (dept_name_upper n) domain)
                                    (dl_email (dept_name_lower n) domain)))
  /\ fst (snd r) = d
  /\ exists lg,
       logs (snd (snd r))
       = (logs w ++ lg
          ++ [(WARNING, DlNotFound (dept_name_upper n) (dept_name_lower n))])%list.
Proof.
  intros Hno Hsecond. to_search.
  rewrite no_match_search_result in Hno.
  destruct (search_result _ _) as [g1|e]; [|discriminate]. run.
  apply negb_true_iff in Hno. rewrite Hno. cbn [negb andb].
  destruct (dept_name_upper n =? dept_name_lower n) eqn:Eq; cbn [negb]; run.
  - unfold link_first. rewrite Hno. run.
    repeat split. eexists [_]. rewrite <- !List.app_assoc. reflexivity.
  - destruct Hsecond as [E|H2]; [apply String.eqb_neq in Eq; contradiction|].
    rewrite search_run. cbn [calls logs]. fold lo.
    rewrite <- List.app_assoc. cbn [List.app].
    destruct (search_result_kept _ g1 Hno H2) as [g2 [E2 Hg2]].
    rewrite E2. run. unfold link_first. rewrite Hg2. run.
    repeat split. eexists [_; _]. rewrite <- !List.app_assoc. reflexivity.
Qed.

End SyncOutcome.

Lemma sync_upper_hit_witness :
  let r := action_sync_dl_from_azure no_repr upper_only techcarrot
             (sales_unlinked, world0) in
  fst r = Ret (Some (LinkedNotice (VStr "DL_Sales@techcarrot.ae")))
  /\ fst (snd r) = sales
  /\ calls (snd (snd r))
     = [ sync_token techcarrot;
         search_request [("Authorization", "Bearer tok")] "DL_Sales@techcarrot.ae" ].
Proof.
  assert (exists code j,
             upper_only (calls world0) (sync_token techcarrot)
             = Response code (Some j)
             /\ Py.get j "access_token" VNone = Ret (VStr "tok")
             /\ truthy (VStr "tok") = true) as Htoken.
  { exists 200%Z, (VDict [("access_token", VStr "tok")]).
    split; [reflexivity|]. split; reflexivity. }
  exact (sync_upper_hit no_repr upper_only techcarrot sales_unlinked world0
           "Sales" (VStr "tok") eq_refl eq_refl Htoken
           (VDict [("value", VList [group "DL_Sales@techcarrot.ae" "g-1"])])
           (group "DL_Sales@techcarrot.ae" "g-1") []
           (VStr "DL_Sales@techcarrot.ae") (VStr "g-1")
           eq_refl eq_refl eq_refl eq_refl).
Defined.

Lemma sync_not_found_witness :
  let r := action_sync_dl_from_azure no_repr (group_directory []) techcarrot
             (sales_unlinked, world0) in
  fst r = Ret (Some (NotFoundNotice "DL_Sales@techcarrot.ae"
                                    "DL_sales@techcarrot.ae"))
  /\ fst (snd r) = sales_unlinked
  /\ exists lg,
       logs (snd (snd r))
       = (logs world0 ++ lg ++ [(WARNING, DlNotFound "Sales" "sales")])%list.
Proof.
  assert (exists code j,
             group_directory [] (calls world0) (sync_token techcarrot)
             = Response code (Some j)
             /\ Py.get j "access_token" VNone = Ret (VStr "tok")
             /\ truthy (VStr "tok") = true) as Htoken.
  { exists 200%Z, (VDict [("access_token", VStr "tok")]).
    split; [reflexivity|]. split; reflexivity. }
  exact (sync_not_found no_repr (group_directory []) techcarrot sales_unlinked
           world0 "Sales" (VStr "tok") eq_refl eq_refl Htoken eq_refl
           (or_intror eq_refl)).
Defined.

(** X28.  When the document of the token reply holds no usable
    [access_token], whatever the status of the reply, the sync logs an error
    and returns [None], no notification, after this one call; the
    department is unchanged. *)
Theorem sync_missing_token repr net cfg d w code j token :
  all_set cfg = true ->
  net (calls w) (sync_token cfg) = Response code (Some j) ->
  Py.get j "access_token" VNone = Ret token ->
  truthy token = false ->
  action_sync_dl_from_azure repr net cfg (d, w)
  = (Ret None,
     (d, mkWorld (calls w ++ [sync_token cfg])%list
           (logs w ++ [(ERROR, DeptNoToken)])%list)).
Proof.
  intros Hall Ht Hj Htr.
  unfold action_sync_dl_from_azure. rewrite Hall. cbn [negb]. run.
  fold (sync_token cfg). rewrite Ht. run. rewrite Hj. run. rewrite Htr.
  cbn [negb]. run. reflexivity.
Qed.

Lemma sync_missing_token_witness :
  action_sync_dl_from_azure no_repr token_denied techcarrot (sales_unlinked, world0)
  = (Ret None,
     (sales_unlinked,
      mkWorld [sync_token techcarrot] [(ERROR, DeptNoToken)])).
Proof.
  exact (sync_missing_token no_repr token_denied techcarrot sales_unlinked world0
           401%Z (VDict [("error", VStr "invalid_client")]) VNone
           eq_refl eq_refl eq_refl eq_refl).
Defined.

Lemma link_first_cases repr name upper lower domain groups d w :
  (exists e lg,
      link_first repr name upper lower domain groups (d, w)
      = (Raise e, (d, mkWorld (calls w) lg)))
  \/ (exists a s,
        link_first repr name upper lower domain groups (d, w) = (Ret (Some a), s)
        /\ forall e, a <> ErrorNotice e).
Proof.
  destruct w as [cs ls].
  unfold link_first. destruct (truthy groups); run.
  2:{ right. do 2 eexists. split; [reflexivity|discriminate]. }
  destruct (item0 groups) as [grp|e]; run.
  2:{ left. do 2 eexists. reflexivity. }
  destruct (Py.get grp "mail" VNone) as [mail|e]; run.
  2:{ left. do 2 eexists. reflexivity. }
  destruct (Py.get grp "id" VNone) as [id|e]; run.
  2:{ left. do 2 eexists. reflexivity. }
  unfold write_link. run. right. do 2 eexists. split; [reflexivity|discriminate].
Qed.

(** X29.  A sync that returns the error notification for an exception
    has left the department unchanged and has logged that exception
    last. *)
Theorem sync_error_is_logged repr net cfg d w e :
  fst (action_sync_dl_from_azure repr net cfg (d, w)) = Ret (Some (ErrorNotice e)) ->
  fst (snd (action_sync_dl_from_azure repr net cfg (d, w))) = d
  /\ exists lg,
       logs (snd (snd (action_sync_dl_from_azure repr net cfg (d, w))))
       = (lg ++ [(ERROR, DeptError e)])%list.
Proof.
  unfold action_sync_dl_from_azure.
  destruct (all_set cfg); cbn [negb]; run; [|discriminate].
  destruct (net (calls w) _) as [|code content]; run.
  { intros [= <-]. split; [reflexivity|]. eexists. reflexivity. }
  destruct content as [j|]; run.
  2:{ intros [= <-]. split; [reflexivity|]. eexists. reflexivity. }
  destruct (Py.get j "access_token" VNone) as [token|e0]; run.
  2:{ intros [= <-]. split; [reflexivity|]. eexists. reflexivity. }
  destruct (truthy token); cbn [negb]; run; [|discriminate].
  destruct (Department.name d) as [n|] eqn:En; run.
  2:{ intros [= <-]. split; [reflexivity|]. eexists. reflexivity. }
  rewrite search_run. cbn [calls logs].
  destruct (search_result _ _) as [g1|e0]; run.
  2:{ intros [= <-]. split; [reflexivity|]. eexists. reflexivity. }
  assert (forall g w',
    let r := (let (o, s') := link_first repr n (dept_name_upper n) (dept_name_lower n)
                 (fmt_char (azure_domain cfg)) g (d, w') in
              match o with
              | Ret a => (Ret a, s')
              | Raise e => (Ret (Some (ErrorNotice e)),
                  (fst s', mkWorld (calls (snd s'))
                             (logs (snd s') ++ [(ERROR, DeptError e)])%list))
              end) in
    fst r = Ret (Some (ErrorNotice e)) ->
    fst (snd r) = d
    /\ exists lg, logs (snd (snd r)) = (lg ++ [(ERROR, DeptError e)])%list) as Hlink.
  { intros g w'.
    destruct (link_first_cases repr n (dept_name_upper n) (dept_name_lower n)
                (fmt_char (azure_domain cfg)) g d w')
      as [[e0 [lg E]]|[a [s [E Ha]]]]; rewrite E; cbn [fst snd calls logs].
    - intros [= <-]. split; [reflexivity|]. eexists. reflexivity.
    - intros [= ->]. now destruct (Ha e). }
  destruct (negb (truthy g1) && negb (dept_name_upper n =? dept_name_lower n)); run.
  - rewrite search_run. cbn [calls logs].
    destruct (search_result _ _) as [g2|e0]; run.
    2:{ intros [= <-]. split; [reflexivity|]. eexists. reflexivity. }
    apply Hlink.
  - apply Hlink.
Qed.

Lemma sync_error_is_logged_witness :
  let r := action_sync_dl_from_azure no_repr offline techcarrot
             (sales_unlinked, world0) in
  fst (snd r) = sales_unlinked
  /\ exists lg, logs (snd (snd r)) = (lg ++ [(ERROR, DeptError RequestException)])%list.
Proof.
  exact (sync_error_is_logged no_repr offline techcarrot sales_unlinked world0
           RequestException eq_refl).
Defined.

(** X30.  After a sync has linked a department to a group with a
    non-empty id, [_add_to_dept_dl] for an employee of that department with
    an account does not call [create_dl]: it adds the member to the group
    the sync found. *)
Theorem sync_then_add_skips_create_dl repr net cfg d w n token j1 grp rest mail s
    net' create_dl e :
  all_set cfg = true ->
  Department.name d = Some n ->
  (exists code j,
      net (calls w) (sync_token cfg) = Response code (Some j)
      /\ Py.get j "access_token" VNone = Ret token
      /\ truthy token = true) ->
  net (calls w ++ [sync_token cfg])%list (upper_search repr cfg token n)
  = Response 200 (Some j1) ->
  Py.get j1 "value" (VList []) = Ret (VList (grp :: rest)) ->
  Py.get grp "mail" VNone = Ret mail ->
  Py.get grp "id" VNone = Ret (VStr s) ->
  s <> EmptyString ->
  truthy_char (Employee.azure_user_id e) = true ->
  let after := snd (action_sync_dl_from_azure repr net cfg (d, w)) in
  let linked := Department.mk (Some n) (to_char repr mail) (Some s) in
  fst after = linked
  /\ _add_to_dept_dl repr net' create_dl cfg (mkStore e (Some (fst after)), snd after)
     = add_member repr net' cfg e linked (mkStore e (Some linked), snd after).
Proof.
  intros Hall Hname Htoken H1 Hv Hm Hi Hs Hu after linked.
  unfold after.
  rewrite (upper_hit_run repr net cfg d w n token Hall Hname Htoken
             j1 grp rest mail (VStr s) H1 Hv Hm Hi).
  cbn [fst snd to_char str]. split; [reflexivity|].
  apply add_to_dept_dl_linked; [reflexivity| |exact Hu].
  unfold linked. cbn [Department.azure_dl_id truthy_char].
  apply String.eqb_neq in Hs. now rewrite Hs.
Qed.

Lemma sync_then_add_skips_create_dl_witness :
  let after := snd (action_sync_dl_from_azure no_repr upper_only techcarrot
                      (sales_unlinked, world0)) in
  fst after = sales
  /\ _add_to_dept_dl no_repr group_members missing_create_dl techcarrot
       (mkStore (self kumar_in_sales) (Some (fst after)), snd after)
     = add_member no_repr group_members techcarrot (self kumar_in_sales) sales
         (kumar_in_sales, snd after).
Proof.
  assert (exists code j,
             upper_only (calls world0) (sync_token techcarrot)
             = Response code (Some j)
             /\ Py.get j "access_token" VNone = Ret (VStr "tok")
             /\ truthy (VStr "tok") = true) as Htoken.
  { exists 200%Z, (VDict [("access_token", VStr "tok")]).
    split; [reflexivity|]. split; reflexivity. }
  apply (sync_then_add_skips_create_dl no_repr upper_only techcarrot
           sales_unlinked world0 "Sales" (VStr "tok")
           (VDict [("value", VList [group "DL_Sales@techcarrot.ae" "g-1"])])
           (group "DL_Sales@techcarrot.ae" "g-1") []
           (VStr "DL_Sales@techcarrot.ae") "g-1" group_members missing_create_dl
           (self kumar_in_sales) eq_refl eq_refl Htoken
           eq_refl eq_refl eq_refl eq_refl).
  - discriminate.
  - reflexivity.
Defined.

(** ** Who writes the link of a department *)

Lemma first_group_inv r grp :
  first_group r = Some grp ->
  exists j rest,
    r = Response 200 (Some j)
    /\ Py.get j "value" (VList []) = Ret (VList (grp :: rest)).
Proof.
  destruct r as [|code [j|]]; try discriminate. unfold first_group.
  destruct (Z.eqb_spec code 200) as [->|]; [|discriminate].
  destruct (Py.get j "value" (VList [])) as [[| | | |[|g rest]|]|e] eqn:E;
    try discriminate.
  intros [= ->]. exists j, rest. split; [reflexivity|exact E].
Qed.

Lemma first_group_no_match r grp :
  first_group r = Some grp -> no_match r = false.
Proof.
  intros H. destruct (first_group_inv r grp H) as [j [rest [-> Hv]]].
  unfold no_match. cbn [Z.eqb Pos.eqb]. rewrite Hv. reflexivity.
Qed.

Lemma search_result_first_group r g0 grp rest :
  truthy g0 = false ->
  search_result r g0 = Ret (VList (grp :: rest)) ->
  first_group r = Some grp.
Proof.
  intros Hg. destruct r as [|code [j|]]; unfold search_result, first_group;
    try discriminate.
  - destruct (code =? 200)%Z.
    + intros ->. reflexivity.
    + intros [= ->]. discriminate.
  - destruct (code =? 200)%Z; [discriminate|]. intros [= ->]. discriminate.
Qed.

Lemma link_first_written repr name upper lower domain groups d w :
  exists o lg d',
    link_first repr name upper lower domain groups (d, w)
    = (o, (d', mkWorld (calls w) lg))
    /\ (d' = d
        \/ exists grp rest mail id,
             groups = VList (grp :: rest)
             /\ Py.get grp "mail" VNone = Ret mail
             /\ Py.get grp "id" VNone = Ret id
             /\ d' = Department.mk (Department.name d)
                      (to_char repr mail) (to_char repr id)
             /\ o = Ret (Some (LinkedNotice mail))).
Proof.
  destruct w as [cs ls].
  unfold link_first. destruct (truthy groups); run.
  2:{ do 3 eexists. split; [reflexivity|now left]. }
  destruct (item0 groups) as [grp|e] eqn:E0; run.
  2:{ do 3 eexists. split; [reflexivity|now left]. }
  destruct (Py.get grp "mail" VNone) as [mail|e] eqn:Em; run.
  2:{ do 3 eexists. split; [reflexivity|now left]. }
  destruct (Py.get grp "id" VNone) as [id|e] eqn:Ei; run.
  2:{ do 3 eexists. split; [reflexivity|now left]. }
  unfold write_link. run. do 3 eexists. split; [reflexivity|].
  destruct groups as [| | |s|[|g rest]|]; try discriminate E0.
  - destruct s as [|c s]; [discriminate E0|]. injection E0 as <-. discriminate Em.
  - injection E0 as ->. right. exists grp, rest, mail, id. repeat split; assumption.
Qed.

Lemma sync_written repr net cfg d w :
  let r := action_sync_dl_from_azure repr net cfg (d, w) in
  fst (snd r) = d
  \/ exists n token q hist grp mail id,
       Department.name d = Some n
       /\ (q = upper_search repr cfg token n \/ q = lower_search repr cfg token n)
       /\ calls (snd (snd r)) = (hist ++ [q])%list
       /\ first_group (net hist q) = Some grp
       /\ Py.get grp "mail" VNone = Ret mail
       /\ Py.get grp "id" VNone = Ret id
       /\ fst (snd r)
          = Department.mk (Some n) (to_char repr mail) (to_char repr id)
       /\ fst r = Ret (Some (LinkedNotice mail)).
Proof.
  unfold action_sync_dl_from_azure.
  destruct (all_set cfg); cbn [negb]; run; [|now left].
  fold (sync_token cfg).
  destruct (net (calls w) (sync_token cfg)) as [|code content]; run; [now left|].
  destruct content as [j|]; run; [|now left].
  destruct (Py.get j "access_token" VNone) as [token|e]; run; [|now left].
  destruct (truthy token); cbn [negb]; run; [|now left].
  destruct (Department.name d) as [n|] eqn:En; run; [|now left].
  rewrite search_run. cbn [calls logs]. fold (upper_search repr cfg token n).
  destruct (search_result _ (VList [])) as [g1|e] eqn:E1; run; [|now left].
  destruct (truthy g1) eqn:T1; cbn [negb andb]; run.
  - match goal with
    | |- context [link_first ?a ?b ?c ?e ?f ?g (?x, ?y)] =>
        destruct (link_first_written a b c e f g x y)
          as [o [lg [d' [E [->|[grp [rest [mail [id [Hg [Hm [Hi [-> ->]]]]]]]]]]]]];
        rewrite E
    end.
    + left. destruct o; reflexivity.
    + right. subst g1.
      exists n, token, (upper_search repr cfg token n),
        (calls w ++ [sync_token cfg])%list, grp, mail, id.
      cbn [fst snd calls]. rewrite En.
      repeat split; try assumption; try reflexivity.
      * now left.
      * eapply search_result_first_group; [|exact E1]. reflexivity.
  - destruct (dept_name_upper n =? dept_name_lower n); cbn [negb]; run.
    + match goal with
      | |- context [link_first ?a ?b ?c ?e ?f ?g (?x, ?y)] =>
          destruct (link_first_written a b c e f g x y)
            as [o [lg [d' [E [->|[grp [rest [mail [id [Hg [Hm [Hi [-> ->]]]]]]]]]]]]];
          rewrite E
      end.
      * left. destruct o; reflexivity.
      * subst g1. discriminate T1.
    + rewrite search_run. cbn [calls logs]. fold (lower_search repr cfg token n).
      destruct (search_result _ g1) as [g2|e] eqn:E2; run; [|now left].
      match goal with
      | |- context [link_first ?a ?b ?c ?e ?f ?g (?x, ?y)] =>
          destruct (link_first_written a b c e f g x y)
            as [o [lg [d' [E [->|[grp [rest [mail [id [Hg [Hm [Hi [-> ->]]]]]]]]]]]]];
          rewrite E
      end.
      * left. destruct o; reflexivity.
      * right. subst g2.
        exists n, token, (lower_search repr cfg token n),
          ((calls w ++ [sync_token cfg]) ++ [upper_search repr cfg token n])%list,
          grp, mail, id.
        cbn [fst snd calls]. rewrite En.
        repeat split; try assumption; try reflexivity.
        -- now right.
        -- eapply search_result_first_group; [exact T1|exact E2].
Qed.

Lemma sync_found repr net cfg d w n token grp mail id :
  all_set cfg = true ->
  Department.name d = Some n ->
  (exists code j,
      net (calls w) (sync_token cfg) = Response code (Some j)
      /\ Py.get j "access_token" VNone = Ret token
      /\ truthy token = true) ->
  let up := upper_search repr cfg token n in
  let lo := lower_search repr cfg token n in
  first_group (net (calls w ++ [sync_token cfg])%list up) = Some grp
  \/ (no_match (net (calls w ++ [sync_token cfg])%list up) = true
      /\ dept_name_upper n <> dept_name_lower n
      /\ first_group (net (calls w ++ [sync_token cfg; up])%list lo) = Some grp) ->
  Py.get grp "mail" VNone = Ret mail ->
  Py.get grp "id" VNone = Ret id ->
  fst (snd (action_sync_dl_from_azure repr net cfg (d, w)))
  = Department.mk (Some n) (to_char repr mail) (to_char repr id).
Proof.
  intros Hall Hname Htoken up lo Hfound Hm Hi.
  destruct Hfound as [H1|[Hno [Hdiff H2]]].
  - destruct (first_group_inv _ _ H1) as [j1 [rest [E1 Hv]]].
    now rewrite (upper_hit_run repr net cfg d w n token Hall Hname Htoken
                   j1 grp rest mail id E1 Hv Hm Hi).
  - destruct (first_group_inv _ _ H2) as [j2 [rest [E2 Hv]]].
    destruct (sync_lower_hit repr net cfg d w n token Hall Hname Htoken
                200%Z j2 grp rest mail id Hdiff Hno E2 eq_refl Hv Hm Hi)
      as [_ ->].
    now rewrite Hname.
Qed.

Lemma create_keeps_link repr net create_dl cfg st w dept :
  department_id st = Some dept ->
  truthy_char (Department.azure_dl_id dept) = true ->
  department_id (fst (snd (create repr net create_dl cfg (st, w)))) = Some dept.
Proof.
  intros Hd Hdl. unfold create. run.
  destruct (truthy_char (Employee.name (self st))); run; [|exact Hd].
  pose proof (create_azure_email_keeps_department repr net cfg st w) as Hk.
  pose proof (proj1 (create_azure_email_shape repr net cfg st w)) as Ho.
  cbv zeta in Ho.
  destruct (_create_azure_email repr net cfg (st, w)) as [o [st' w']].
  cbn [fst snd] in Hk, Ho. subst o. run. rewrite Hd in Hk. rewrite Hk.
  destruct (truthy_char (Employee.azure_user_id (self st'))); [|exact Hk].
  now rewrite (add_to_dept_dl_keeps_link repr net create_dl cfg st' w' dept Hk Hdl).
Qed.

(** C9, amended.  The link fields of a department are written by
    [action_sync_dl_from_azure] only, and only from a group it found.
    (1) A sync leaves the department as it was, or the last call of the run
    is the search for the upper or the lower form, its reply puts a group
    first, and both fields are written in one write from the mail and the id
    of that group.  (2) Conversely, with the parameters set and a token
    granted, whenever the search for the upper form puts a group first, or
    it holds no group, the forms differ and the search for the lower form
    puts a group first, the department is written from that group, whether
    it was linked before or not: a linked department is linked anew.
    (3) [_add_to_dept_dl] leaves a linked department as it is,
    (4) [_create_azure_email] never touches the department, and (5) so does
    [create] for a linked department. *)
Theorem link_written_by_sync_only repr net create_dl cfg :
  (forall d w,
      let r := action_sync_dl_from_azure repr net cfg (d, w) in
      fst (snd r) = d
      \/ exists n token q hist grp mail id,
           Department.name d = Some n
           /\ (q = upper_search repr cfg token n
               \/ q = lower_search repr cfg token n)
           /\ calls (snd (snd r)) = (hist ++ [q])%list
           /\ first_group (net hist q) = Some grp
           /\ Py.get grp "mail" VNone = Ret mail
           /\ Py.get grp "id" VNone = Ret id
           /\ fst (snd r)
              = Department.mk (Some n) (to_char repr mail) (to_char repr id)
           /\ fst r = Ret (Some (LinkedNotice mail)))
  /\ (forall d w n token grp mail id,
        all_set cfg = true ->
        Department.name d = Some n ->
        (exists code j,
            net (calls w) (sync_token cfg) = Response code (Some j)
            /\ Py.get j "access_token" VNone = Ret token
            /\ truthy token = true) ->
        let up := upper_search repr cfg token n in
        let lo := lower_search repr cfg token n in
        first_group (net (calls w ++ [sync_token cfg])%list up) = Some grp
        \/ (no_match (net (calls w ++ [sync_token cfg])%list up) = true
            /\ dept_name_upper n <> dept_name_lower n
            /\ first_group (net (calls w ++ [sync_token cfg; up])%list lo)
               = Some grp) ->
        Py.get grp "mail" VNone = Ret mail ->
        Py.get grp "id" VNone = Ret id ->
        fst (snd (action_sync_dl_from_azure repr net cfg (d, w)))
        = Department.mk (Some n) (to_char repr mail) (to_char repr id))
  /\ (forall st w dept,
        department_id st = Some dept ->
        truthy_char (Department.azure_dl_id dept) = true ->
        department_id (fst (snd (_add_to_dept_dl repr net create_dl cfg (st, w))))
        = Some dept)
  /\ (forall st w,
        department_id (fst (snd (_create_azure_email repr net cfg (st, w))))
        = department_id st)
  /\ (forall st w dept,
        department_id st = Some dept ->
        truthy_char (Department.azure_dl_id dept) = true ->
        department_id (fst (snd (create repr net create_dl cfg (st, w))))
        = Some dept).
Proof.
  split; [|split; [|split; [|split]]].
  - intros d w. apply sync_written.
  - intros d w n token grp mail id. apply sync_found.
  - intros st w dept Hd Hdl.
    now rewrite (add_to_dept_dl_keeps_link repr net create_dl cfg st w dept Hd Hdl).
  - intros st w. apply create_azure_email_keeps_department.
  - intros st w dept. apply create_keeps_link.
Qed.

Lemma link_written_by_sync_only_witness :
  fst (snd (action_sync_dl_from_azure no_repr regrouped techcarrot (sales, world0)))
  = Department.mk (Some "Sales") (Some "DL_Sales@techcarrot.ae") (Some "g-new")
  /\ fst (snd (action_sync_dl_from_azure no_repr (group_directory []) techcarrot
                 (sales, world0)))
     = sales
  /\ department_id
       (fst (snd (_add_to_dept_dl no_repr group_members no_create_dl techcarrot
                    (kumar_in_sales, world0))))
     = Some sales
  /\ department_id
       (fst (snd (create no_repr group_members no_create_dl techcarrot
                    (kumar_in_sales, world0))))
     = Some sales.
Proof.
  split; [|split; [|split]].
  - assert (exists code j,
               regrouped (calls world0) (sync_token techcarrot)
               = Response code (Some j)
               /\ Py.get j "access_token" VNone = Ret (VStr "tok")
               /\ truthy (VStr "tok") = true) as Htoken.
    { exists 200%Z, (VDict [("access_token", VStr "tok")]).
      split; [reflexivity|]. split; reflexivity. }
    exact (proj1 (proj2 (link_written_by_sync_only no_repr regrouped
                           no_create_dl techcarrot))
             sales world0 "Sales" (VStr "tok")
             (group "DL_Sales@techcarrot.ae" "g-new")
             (VStr "DL_Sales@techcarrot.ae") (VStr "g-new")
             eq_refl eq_refl Htoken (or_introl eq_refl) eq_refl eq_refl).
  - destruct (proj1 (link_written_by_sync_only no_repr (group_directory [])
                       no_create_dl techcarrot) sales world0)
      as [H|[n [token [q [hist [grp [mail [id [_ [Hq [_ [Hf _]]]]]]]]]]]].
    + exact H.
    + destruct Hq as [->| ->]; discriminate Hf.
  - exact (proj1 (proj2 (proj2 (link_written_by_sync_only no_repr group_members
                                  no_create_dl techcarrot)))
             kumar_in_sales world0 sales eq_refl eq_refl).
  - exact (proj2 (proj2 (proj2 (proj2 (link_written_by_sync_only no_repr
                                         group_members no_create_dl techcarrot))))
             kumar_in_sales world0 sales eq_refl eq_refl).
Defined.
